(** * Express API template: CORS policy, error responder, health and startup reporters

    A shallow embedding of
      - src/middlewares/corsConfig.ts   (module [CorsConfig]),
      - src/middlewares/errorHandler.ts (module [ErrorHandler]),
      - src/routes/health.ts            (module [Health]),
      - src/utils/serverStartup.ts      (module [ServerStartup]),
      - the middleware order of src/app.ts (module [App]),
    over small models of the JavaScript values and of the Node and Express
    objects these files touch (modules [Js], [Node], [Express]). *)

From Stdlib Require Import PrimFloat Ascii ZArith.
From Corelib Require FloatOps SpecFloat.
From stdpp Require Import gmap strings list.

(** ** JavaScript values and built-ins used by the sources *)
Module Js.

(** A JavaScript [number] is an IEEE 754 binary64 value. *)
Abbreviation number := float (only parsing).

(** [ToBoolean] on a number: [+0], [-0] and [NaN] are falsy. *)
Definition ToBoolean (n : number) : bool :=
  negb (PrimFloat.is_zero n || PrimFloat.is_nan n).

(** Truthiness of an operand of type [number | undefined]. *)
Definition truthy (v : option number) : bool :=
  match v with
  | Some n => ToBoolean n
  | None => false
  end.

(** [a || b] on operands of type [number | undefined]. *)
Definition or (a b : option number) : option number :=
  match a with
  | Some n => if ToBoolean n then Some n else b
  | None => b
  end.

(** [a || k] where [k] is a number: the result is a number. *)
Definition or_number (a : option number) (k : number) : number :=
  match a with
  | Some n => if ToBoolean n then n else k
  | None => k
  end.

(** [!s] on an operand of type [string | undefined]: [undefined] and the
    empty string are falsy. *)
Definition not (s : option string) : bool :=
  match s with
  | None => true
  | Some EmptyString => true
  | Some (String _ _) => false
  end.

(** The string a value of type [string | undefined] is once a truthiness
    test has narrowed its type to [string]. *)
Definition narrowed (s : option string) : string :=
  match s with
  | Some x => x
  | None => EmptyString
  end.

(** [s.split(sep)] for a one-character separator. The result always has at
    least one piece: [''.split(',')] is [['']]. *)
Fixpoint split (sep : Ascii.ascii) (s : string) : list string :=
  match s with
  | EmptyString => [EmptyString]
  | String c s' =>
      if Ascii.eqb c sep then EmptyString :: split sep s'
      else match split sep s' with
           | [] => [String c EmptyString]
           | w :: ws => String c w :: ws
           end
  end.

(** [pieces.join(sep)], the inverse of [split]. *)
Fixpoint join (sep : Ascii.ascii) (pieces : list string) : string :=
  match pieces with
  | [] => EmptyString
  | [w] => w
  | w :: ws => w +:+ String sep (join sep ws)
  end.

(** [s.includes(c)] for a one-character [c]. *)
Fixpoint string_includes (s : string) (c : Ascii.ascii) : bool :=
  match s with
  | EmptyString => false
  | String c' s' => Ascii.eqb c' c || string_includes s' c
  end.

(** [xs.includes(x)] on an array of strings. *)
Definition includes (xs : list string) (x : string) : bool :=
  existsb (String.eqb x) xs.

(** The values stored in the object literals of the sources. *)
Inductive Value :=
| Undefined
| Boolean (b : bool)
| Number (n : number)
| Str (s : string).

(** A value of type [string | undefined] as a [Value]. *)
Definition of_optional_string (s : option string) : Value :=
  match s with
  | Some x => Str x
  | None => Undefined
  end.

(** A plain object: own properties by key. *)
Abbreviation Object := (gmap string Value) (only parsing).

(** [{ ...target, ...src }] where [src] is [false] ([None]: nothing is
    copied) or an object (its properties override the target's). *)
Definition spread (src : option Object) (target : Object) : Object :=
  match src with
  | None => target
  | Some o => o ∪ target
  end.

(** [isDevelopment && obj]. *)
Definition and_object (b : bool) (o : Object) : option Object :=
  if b then Some o else None.

(** [JSON.stringify(o)] on a plain object, as the object a client reads
    back: a property whose value is [undefined] is left out. Strings,
    booleans and the (finite) numbers the sources store are kept. *)
Definition JSON (o : Object) : Object :=
  omap (λ v, match v with Undefined => None | _ => Some v end) o.

(** [Number.isInteger(n)]: [n] is finite and has no fractional part. A
    finite binary64 value is [m * 2^e] for an integer mantissa [m]. *)
Definition isInteger (n : number) : bool :=
  match FloatOps.Prim2SF n with
  | SpecFloat.S754_zero _ => true
  | SpecFloat.S754_finite _ m e =>
      if Z.leb 0 e then true else Z.eqb (Z.pos m mod 2 ^ (- e)) 0
  | _ => false
  end.

(** [Error] objects, with the two optional fields of the interface
    [ErrorWithStatus] of errorHandler.ts. *)
Record ErrorWithStatus := {
  name : string;
  message : string;
  stack : option string;
  status : option number;
  statusCode : option number;
}.

(** [new Error(msg)]: the runtime captures the stack [trace]; the object has
    no [status] and no [statusCode] property. *)
Definition new_Error (trace : string) (msg : string) : ErrorWithStatus :=
  {| name := "Error"; message := msg; stack := Some trace;
     status := None; statusCode := None |}.

End Js.

(** ** The Node process: environment and console *)
Module Node.

(** [process.env]: a variable is a string or [undefined]. *)
Abbreviation Env := (gmap string string) (only parsing).

Inductive ConsoleEntry :=
| console_warn (line : string)
| console_error (label : string) (err : Js.ErrorWithStatus)
| console_log (line : string).

(** The state of the process a request handler can see: the environment as
    it is when the handler runs, and what was written to the console. *)
Record Process := {
  env : Env;
  console : list ConsoleEntry;
}.

Definition write (e : ConsoleEntry) (p : Process) : Process :=
  {| env := env p; console := console p ++ [e] |}.

(** An entry of [os.networkInterfaces()]. *)
Inductive Family := IPv4 | IPv6.

Record NetworkInterfaceInfo := {
  address : string;
  netmask : string;
  family : Family;
  mac : string;
  internal : bool;
  cidr : option string;
}.

(** [NodeJS.Dict<NetworkInterfaceInfo[]>]: the properties in the order of
    [Object.keys]; a property may hold [undefined]. *)
Abbreviation Interfaces :=
  (list (string * option (list NetworkInterfaceInfo))) (only parsing).

Definition keys (d : Interfaces) : list string := d.*1.

(** [d[name]]: [undefined] ([None]) for a missing key or an [undefined]
    property. *)
Fixpoint get (d : Interfaces) (k : string) : option (list NetworkInterfaceInfo) :=
  match d with
  | [] => None
  | (k', v) :: d' => if String.eqb k k' then v else get d' k
  end.

End Node.

(** ** The Express response object *)
Module Express.

(** What a handler leaves in the response: the status code set by
    [res.status] and the JSON body sent by [res.json]. *)
Record Response := {
  statusCode : Js.number;
  body : option Js.Object;
}.

(** A response nothing was written to yet. *)
Definition fresh : Response := {| statusCode := 200%float; body := None |}.

(** What [res.status] of Express 5 throws: a [TypeError] for a code that is
    not an integer, a [RangeError] for an integer outside 100..999. Each
    carries the offending code, which its message quotes. *)
Inductive Thrown :=
| TypeError (code : Js.number)
| RangeError (code : Js.number).

(** How a handler ends: it has sent the response, or an exception left it
    before anything was sent. *)
Inductive Completion :=
| sends (res : Response)
| throws (e : Thrown).

(** The test of [res.status]: [Number.isInteger(code)] and neither
    [code < 100] nor [code > 999]. *)
Definition validStatus (code : Js.number) : bool :=
  Js.isInteger code && negb (PrimFloat.ltb code 100 || PrimFloat.ltb 999 code).

(** [res.status(code)]: throws on an invalid code, else sets the status
    code and returns the response for chaining. *)
Definition status (code : Js.number) (res : Response) : Thrown + Response :=
  if negb (Js.isInteger code) then inl (TypeError code)
  else if PrimFloat.ltb code 100 || PrimFloat.ltb 999 code then inl (RangeError code)
  else inr {| statusCode := code; body := body res |}.

(** [res.json(obj)]: sends [JSON.stringify(obj)]. *)
Definition json (obj : Js.Object) (res : Response) : Response :=
  {| statusCode := statusCode res; body := Some (Js.JSON obj) |}.

End Express.

(** ** src/middlewares/corsConfig.ts *)
Module CorsConfig.

(** [const isDevelopment = process.env.NODE_ENV !== 'production'],
    evaluated once, when the module is loaded, on the environment [env0] of
    that moment. *)
Definition isDevelopment (env0 : Node.Env) : bool :=
  negb (bool_decide (env0 !! "NODE_ENV" = Some "production")).

(** The two ways the origin function calls [callback]:
    [callback(null, true)] and [callback(new Error(...))]. *)
Inductive Callback :=
| callback (err : option Js.ErrorWithStatus) (allow : option bool).

(** [process.env.ALLOWED_ORIGINS?.split(',') || []]: an array is truthy, so
    the empty array is used only when the variable is [undefined]. *)
Definition allowedOrigins (env : Node.Env) : list string :=
  match env !! "ALLOWED_ORIGINS" with
  | Some v => Js.split ","%char v
  | None => []
  end.

(** The [origin] function of the options (lines 16-36). [trace] is the
    stack the runtime captures for the [Error] built on denial; the
    environment is read from the process as it is at the call. *)
Definition origin (isDevelopment : bool) (trace : string)
    (origin : option string) (p : Node.Process) : Callback * Node.Process :=
  if Js.not origin then (callback None (Some true), p)
  else if isDevelopment then (callback None (Some true), p)
  else
    let allowedOrigins := allowedOrigins (Node.env p) in
    (* past the first test, [origin] is a non-empty string *)
    let o := Js.narrowed origin in
    if Js.includes allowedOrigins o then (callback None (Some true), p)
    else
      let p := Node.write (Node.console_warn ("❌ CORS blocked origin: " +:+ o)) p in
      (callback (Some (Js.new_Error trace "Not allowed by CORS")) None, p).

(** The options object handed to [cors(...)]. *)
Record CorsOptions := {
  opt_origin : string → option string → Node.Process → Callback * Node.Process;
  credentials : bool;
  methods : list string;
  allowedHeaders : list string;
}.

Definition corsConfig (isDevelopment : bool) : CorsOptions :=
  {| opt_origin := origin isDevelopment;
     credentials := true;
     methods := ["GET"; "POST"; "PUT"; "DELETE"; "PATCH"; "OPTIONS"];
     allowedHeaders := ["Content-Type"; "Authorization"] |}.

(** The decision carried by a callback: allowed when it was called without
    an error and with [true]. *)
Definition allowed (c : Callback) : bool :=
  match c with
  | callback None (Some true) => true
  | _ => false
  end.

Definition denied (c : Callback) : option Js.ErrorWithStatus :=
  match c with
  | callback (Some e) _ => Some e
  | _ => None
  end.

(** The origin function on the requests of a list, one after the other, each
    given by the stack the runtime would capture and its Origin header; the
    process is threaded through. *)
Fixpoint originRun (isDevelopment : bool) (requests : list (string * option string))
    (p : Node.Process) : list Callback * Node.Process :=
  match requests with
  | [] => ([], p)
  | (trace, o) :: requests' =>
      let '(cb, p) := origin isDevelopment trace o p in
      let '(cbs, p) := originRun isDevelopment requests' p in
      (cb :: cbs, p)
  end.

(** The Allowed Origins Set of a configuration: the members of the array. *)
Definition allowedOriginsSet (env : Node.Env) : gset string :=
  list_to_set (allowedOrigins env).

(** Following the specification's words, for comparison with [origin]: the
    allowed origins are a value [startupOrigins] derived once, when the
    process starts, and every request consults that value. *)
Definition origin_derivedOnce (isDevelopment : bool) (startupOrigins : list string)
    (trace : string) (origin : option string) (p : Node.Process)
    : Callback * Node.Process :=
  if Js.not origin then (callback None (Some true), p)
  else if isDevelopment then (callback None (Some true), p)
  else
    let o := Js.narrowed origin in
    if Js.includes startupOrigins o then (callback None (Some true), p)
    else
      let p := Node.write (Node.console_warn ("❌ CORS blocked origin: " +:+ o)) p in
      (callback (Some (Js.new_Error trace "Not allowed by CORS")) None, p).

(** The callback of a denial: [callback(new Error('Not allowed by CORS'))]. *)
Definition denial (trace : string) : Callback :=
  callback (Some (Js.new_Error trace "Not allowed by CORS")) None.

End CorsConfig.

(** ** src/middlewares/errorHandler.ts *)
Module ErrorHandler.

(** [const isDevelopment = process.env.NODE_ENV !== 'production']. *)
Definition isDevelopment (env0 : Node.Env) : bool :=
  negb (bool_decide (env0 !! "NODE_ENV" = Some "production")).

(** [err.status || err.statusCode || 500] (line 27). *)
Definition resolveStatusCode (err : Js.ErrorWithStatus) : Js.number :=
  Js.or_number (Js.or (Js.status err) (Js.statusCode err)) 500%float.

(** The object literal of lines 30-34. *)
Definition responseBody (isDevelopment : bool) (err : Js.ErrorWithStatus) : Js.Object :=
  Js.spread
    (Js.and_object isDevelopment
       {[ "stack" := Js.of_optional_string (Js.stack err) ]})
    (<[ "error" := Js.Str (if isDevelopment then Js.message err
                           else "Internal server error") ]>
       (<[ "success" := Js.Boolean false ]> ∅)).

(** [errorHandler(err, _req, res, _next)]: log, resolve the status code,
    send the JSON body, unless [res.status] throws. The request and [next]
    are not used. *)
Definition errorHandler (isDevelopment : bool) (err : Js.ErrorWithStatus)
    (res : Express.Response) (p : Node.Process) : Express.Completion * Node.Process :=
  let p := Node.write (Node.console_error "❌ Error:" err) p in
  let statusCode := resolveStatusCode err in
  (match Express.status statusCode res with
   | inr res => Express.sends (Express.json (responseBody isDevelopment err) res)
   | inl e => Express.throws e
   end, p).

End ErrorHandler.

(** ** src/utils/serverStartup.ts *)
Module ServerStartup.

(** The inner loop of [getNetworkAddress] (lines 8-13): [Some a] when the
    loop returns [a], [None] when it runs to its end. *)
Fixpoint scanInterface (nets : list Node.NetworkInterfaceInfo) : option string :=
  match nets with
  | [] => None
  | net :: nets' =>
      match Node.family net, Node.internal net with
      | Node.IPv4, false => Some (Node.address net)
      | _, _ => scanInterface nets'
      end
  end.

(** [interfaces[name] || []]: an array is truthy, so the empty array stands
    in for [undefined] only. *)
Definition netsOf (interfaces : Node.Interfaces) (name : string)
    : list Node.NetworkInterfaceInfo :=
  match Node.get interfaces name with
  | Some nets => nets
  | None => []
  end.

(** The outer loop (lines 7-14) over the names still to visit. *)
Fixpoint scanNames (interfaces : Node.Interfaces) (names : list string) : option string :=
  match names with
  | [] => None
  | name :: names' =>
      match scanInterface (netsOf interfaces name) with
      | Some a => Some a
      | None => scanNames interfaces names'
      end
  end.

(** [getNetworkAddress()], on the value [os.networkInterfaces()] returned. *)
Definition getNetworkAddress (interfaces : Node.Interfaces) : string :=
  match scanNames interfaces (Node.keys interfaces) with
  | Some a => a
  | None => "localhost"
  end.

(** The entries in the order the two loops visit them. *)
Definition enumeration (interfaces : Node.Interfaces) : list Node.NetworkInterfaceInfo :=
  flat_map (netsOf interfaces) (Node.keys interfaces).

(** The test of line 10. *)
Definition externalIPv4 (net : Node.NetworkInterfaceInfo) : bool :=
  match Node.family net, Node.internal net with
  | Node.IPv4, false => true
  | _, _ => false
  end.

(** What a scan of [nets] finds: the address of the first entry passing
    the test of line 10, with only failing entries before it, or nothing
    when every entry fails. *)
Definition first_match (nets : list Node.NetworkInterfaceInfo) (found : option string) : Prop :=
  match found with
  | Some a =>
      ∃ pre net post,
        nets = pre ++ net :: post ∧
        Forall (λ n, externalIPv4 n = false) pre ∧
        externalIPv4 net = true ∧ a = Node.address net
  | None => Forall (λ n, externalIPv4 n = false) nets
  end.

(** [port: string | number], the parameter of [displayServerInfo]. *)
Inductive Port :=
| port_string (s : string)
| port_number (n : Js.number).

(** The options object given to [boxen] (lines 32-37). *)
Record BoxenOptions := {
  padding : Js.number;
  margin : Js.number;
  borderStyle : string;
  borderColor : string;
}.

(** What [displayServerInfo] takes from outside the repository: [green],
    [bold] and [dim] of colorette, [boxen], the time of day
    [toLocaleTimeString] gives for a time value, and the string a template
    literal makes of a number. *)
Record Terminal := {
  green : string → string;
  bold : string → string;
  dim : string → string;
  boxen : string → BoxenOptions → string;
  toLocaleTimeString : Z → string;
  numberToString : Js.number → string;
}.

(** [`${port}`]. *)
Definition portString (t : Terminal) (port : Port) : string :=
  match port with
  | port_string s => s
  | port_number n => numberToString t n
  end.

(** [process.env.APP_NAME || 'Express Server'] (line 19): [||] replaces
    [undefined] and the empty string. *)
Definition appName (env : Node.Env) : string :=
  let v := env !! "APP_NAME" in
  if Js.not v then "Express Server" else Js.narrowed v.

(** Lines 20 and 21. *)
Definition localUrl (t : Terminal) (port : Port) : string :=
  "http://localhost:" +:+ portString t port.

Definition networkUrl (t : Terminal) (interfaces : Node.Interfaces) (port : Port) : string :=
  "http://" +:+ getNetworkAddress interfaces +:+ ":" +:+ portString t port.

(** The line break of the template literal. *)
Definition nl : string := String (ascii_of_nat 10) EmptyString.

(** The template literal of lines 24-29. *)
Definition message (t : Terminal) (appName time localUrl networkUrl : string) : string :=
  nl +:+ "  " +:+ green t (bold t ("🚀 " +:+ appName)) +:+ " " +:+
    dim t ("started at " +:+ time) +:+ nl +:+
  nl +:+ "  " +:+ bold t "Local" +:+ ":   " +:+ green t localUrl +:+ nl +:+
  "  " +:+ bold t "Network" +:+ ": " +:+ green t networkUrl +:+ nl.

(** [displayServerInfo(port)], on the interfaces [os.networkInterfaces()]
    returns and the time value [now] of [new Date()]; the application name
    is read from the environment of the process at the call. *)
Definition displayServerInfo (t : Terminal) (interfaces : Node.Interfaces) (now : Z)
    (port : Port) (p : Node.Process) : Node.Process :=
  let appName := appName (Node.env p) in
  let localUrl := localUrl t port in
  let networkUrl := networkUrl t interfaces port in
  let time := toLocaleTimeString t now in
  let message := message t appName time localUrl networkUrl in
  Node.write
    (Node.console_log
       (boxen t message
          {| padding := 0.25%float; margin := 0%float;
             borderStyle := "round"; borderColor := "cyan" |}))
    p.

End ServerStartup.

(** ** The ECMAScript [Date] arithmetic behind [new Date().toISOString()]

    Time values are integers, milliseconds since the epoch (ECMA-262, Time
    Values and Time Range; Date.prototype.toISOString; Date Time String
    Format). *)
Module Date.
Local Open Scope Z_scope.

Definition msPerDay : Z := 86400000.
Definition msPerHour : Z := 3600000.
Definition msPerMinute : Z := 60000.
Definition msPerSecond : Z := 1000.

Definition Day (t : Z) : Z := t `div` msPerDay.
Definition TimeWithinDay (t : Z) : Z := t `mod` msPerDay.

Definition DaysInYear (y : Z) : Z :=
  if negb (y `mod` 4 =? 0) then 365
  else if negb (y `mod` 100 =? 0) then 366
  else if negb (y `mod` 400 =? 0) then 365
  else 366.

Definition DayFromYear (y : Z) : Z :=
  365 * (y - 1970) + (y - 1969) `div` 4 - (y - 1901) `div` 100 + (y - 1601) `div` 400.

(** The year of day number [d]: the largest [y] with [DayFromYear y <= d],
    found from an estimate that is off by at most one. *)
Definition YearFromDay (d : Z) : Z :=
  let y := 1970 + (400 * d) `div` 146097 in
  if d <? DayFromYear y then y - 1
  else if DayFromYear (y + 1) <=? d then y + 1
  else y.

Definition YearFromTime (t : Z) : Z := YearFromDay (Day t).
Definition InLeapYear (t : Z) : Z := if DaysInYear (YearFromTime t) =? 366 then 1 else 0.
Definition DayWithinYear (t : Z) : Z := Day t - DayFromYear (YearFromTime t).

Definition MonthFromTime (t : Z) : Z :=
  let d := DayWithinYear t in
  let l := InLeapYear t in
  if d <? 31 then 0
  else if d <? 59 + l then 1
  else if d <? 90 + l then 2
  else if d <? 120 + l then 3
  else if d <? 151 + l then 4
  else if d <? 181 + l then 5
  else if d <? 212 + l then 6
  else if d <? 243 + l then 7
  else if d <? 273 + l then 8
  else if d <? 304 + l then 9
  else if d <? 334 + l then 10
  else 11.

Definition DateFromTime (t : Z) : Z :=
  let d := DayWithinYear t in
  let l := InLeapYear t in
  match MonthFromTime t with
  | 0 => d + 1
  | 1 => d - 30
  | 2 => d - 58 - l
  | 3 => d - 89 - l
  | 4 => d - 119 - l
  | 5 => d - 150 - l
  | 6 => d - 180 - l
  | 7 => d - 211 - l
  | 8 => d - 242 - l
  | 9 => d - 272 - l
  | 10 => d - 303 - l
  | _ => d - 333 - l
  end.

Definition HourFromTime (t : Z) : Z := (t `div` msPerHour) `mod` 24.
Definition MinFromTime (t : Z) : Z := (t `div` msPerMinute) `mod` 60.
Definition SecFromTime (t : Z) : Z := (t `div` msPerSecond) `mod` 60.
Definition msFromTime (t : Z) : Z := t `mod` msPerSecond.

(** Decimal digits, zero padded to [width]. *)
Definition digit (d : Z) : ascii := ascii_of_nat (48 + Z.to_nat d).

Fixpoint digits (width : nat) (n : Z) : string :=
  match width with
  | O => EmptyString
  | S w => digits w (n `div` 10) +:+ String (digit (n `mod` 10)) EmptyString
  end.

(** Four digits for the years 0 to 9999, otherwise a sign and six digits. *)
Definition yearString (y : Z) : string :=
  if (0 <=? y) && (y <=? 9999) then digits 4 y
  else if y <? 0 then String "-" (digits 6 (- y))
  else String "+" (digits 6 y).

(** [YYYY-MM-DDTHH:mm:ss.sssZ]. *)
Definition toISOString (t : Z) : string :=
  yearString (YearFromTime t) +:+ "-" +:+ digits 2 (MonthFromTime t + 1) +:+ "-" +:+
  digits 2 (DateFromTime t) +:+ "T" +:+ digits 2 (HourFromTime t) +:+ ":" +:+
  digits 2 (MinFromTime t) +:+ ":" +:+ digits 2 (SecFromTime t) +:+ "." +:+
  digits 3 (msFromTime t) +:+ "Z".

(** [MakeTime], [MakeDay], [MakeDate] and [TimeClip], on fields in range. *)
Definition MakeTime (hour min sec ms : Z) : Z :=
  hour * msPerHour + min * msPerMinute + sec * msPerSecond + ms.

Definition leap (y : Z) : Z := if DaysInYear y =? 366 then 1 else 0.

(** Days of year [y] before month [m] (0-based). *)
Definition daysBeforeMonth (y m : Z) : Z :=
  match m with
  | 0 => 0
  | 1 => 31
  | 2 => 59 + leap y
  | 3 => 90 + leap y
  | 4 => 120 + leap y
  | 5 => 151 + leap y
  | 6 => 181 + leap y
  | 7 => 212 + leap y
  | 8 => 243 + leap y
  | 9 => 273 + leap y
  | 10 => 304 + leap y
  | _ => 334 + leap y
  end.

Definition DaysInMonth (y m : Z) : Z :=
  match m with
  | 1 => 28 + leap y
  | 3 | 5 | 8 | 10 => 30
  | _ => 31
  end.

Definition MakeDay (year month date : Z) : Z :=
  DayFromYear year + daysBeforeMonth year month + date - 1.

Definition MakeDate (day time : Z) : Z := day * msPerDay + time.

Definition TimeClip (t : Z) : option Z :=
  if (-8640000000000000 <=? t) && (t <=? 8640000000000000) then Some t else None.

(** Reading the complete form of the Date Time String Format, with the
    offset [Z], back to a time value: a reader takes a prefix of the string
    and gives the value read and the rest. *)
Definition read_digit (s : string) : option (Z * string) :=
  match s with
  | String c s' =>
      let n := Z.of_nat (nat_of_ascii c) in
      if (48 <=? n) && (n <=? 57) then Some (n - 48, s') else None
  | EmptyString => None
  end.

Fixpoint read_digits (width : nat) (s : string) : option (Z * string) :=
  match width with
  | O => Some (0, s)
  | S w =>
      '(v, s1) ← read_digits w s;
      '(d, s2) ← read_digit s1;
      Some (10 * v + d, s2)
  end.

Definition expect (c : ascii) (s : string) : option string :=
  match s with
  | String c' s' => if Ascii.eqb c' c then Some s' else None
  | EmptyString => None
  end.

Definition read_year (s : string) : option (Z * string) :=
  match s with
  | String c s' =>
      if Ascii.eqb c "+" then read_digits 6 s'
      else if Ascii.eqb c "-" then
        '(y, r) ← read_digits 6 s';
        if y =? 0 then None else Some (- y, r)
      else read_digits 4 s
  | EmptyString => None
  end.

(** [Date.parse] on the complete form; [None] stands for [NaN]. *)
Definition parse (s : string) : option Z :=
  '(y, s) ← read_year s;
  s ← expect "-" s;
  '(mo, s) ← read_digits 2 s;
  s ← expect "-" s;
  '(d, s) ← read_digits 2 s;
  s ← expect "T" s;
  '(h, s) ← read_digits 2 s;
  s ← expect ":" s;
  '(mi, s) ← read_digits 2 s;
  s ← expect ":" s;
  '(sec, s) ← read_digits 2 s;
  s ← expect "." s;
  '(ms, s) ← read_digits 3 s;
  s ← expect "Z" s;
  if String.eqb s EmptyString
     && (1 <=? mo) && (mo <=? 12)
     && (1 <=? d) && (d <=? DaysInMonth y (mo - 1))
     && (h <=? 23) && (mi <=? 59) && (sec <=? 59)
  then TimeClip (MakeDate (MakeDay y (mo - 1) d) (MakeTime h mi sec ms))
  else None.
End Date.

(** ** src/routes/health.ts *)
Module Health.

(** What the handler reads from the runtime: the system clock behind
    [new Date()], in milliseconds since the epoch, and [process.uptime()],
    in seconds. *)
Record Clock := {
  now : Z;
  uptime : Js.number;
}.

(** The handler of lines 5-11; the request is not used. *)
Definition healthHandler (clock : Clock) (res : Express.Response) : Express.Completion :=
  match Express.status 200%float res with
  | inr res =>
      Express.sends
        (Express.json
           (<[ "uptime" := Js.Number (uptime clock) ]>
              (<[ "timestamp" := Js.Str (Date.toISOString (now clock)) ]>
                 (<[ "status" := Js.Str "ok" ]> ∅)))
           res)
  | inl e => Express.throws e
  end.

Inductive Method := GET | POST | PUT | DELETE | PATCH | OPTIONS.

Record Route := {
  method : Method;
  path : string;
  handler : Clock → Express.Response → Express.Completion;
}.

Definition Method_eqb (a b : Method) : bool :=
  match a, b with
  | GET, GET | POST, POST | PUT, PUT | DELETE, DELETE
  | PATCH, PATCH | OPTIONS, OPTIONS => true
  | _, _ => false
  end.

(** [healthRouter.get('/health', ...)]: the one route of the router. *)
Definition healthRouter : list Route :=
  [ {| method := GET; path := "/health"; handler := healthHandler |} ].

End Health.

(** ** src/app.ts *)
Module App.

(** [app.use('/api', healthRouter)] (line 20). *)
Definition mounts : list (string * list Health.Route) :=
  [ ("/api", Health.healthRouter) ].

(** [app.use(corsConfig)] (line 14) and [app.use(errorHandler)] (line 24).
    The cors middleware runs the [origin] function of its options on the
    Origin header of the request; an error given to the callback goes to
    [next], and Express hands it to the error-handling middleware, which
    answers ([Some] of how it ends). Without an error the request goes on
    to the next middleware ([None]). Both modules computed their [isDevelopment]
    from the environment [env0] the process was started with. *)
Definition corsStage (env0 : Node.Env) (trace : string) (origin : option string)
    (res : Express.Response) (p : Node.Process) : option Express.Completion * Node.Process :=
  let '(cb, p) :=
    CorsConfig.opt_origin (CorsConfig.corsConfig (CorsConfig.isDevelopment env0))
      trace origin p in
  match CorsConfig.denied cb with
  | Some err =>
      let '(res, p) :=
        ErrorHandler.errorHandler (ErrorHandler.isDevelopment env0) err res p in
      (Some res, p)
  | None => (None, p)
  end.

(** A request, as far as the application looks at it: method, path of the
    URL, [Origin] header, the stack the runtime captures if an [Error] is
    built while it is handled, and what [express.json()] makes of its body:
    nothing to report, or the error it hands to [next]. *)
Record Request := {
  req_method : Health.Method;
  req_path : string;
  req_origin : option string;
  req_trace : string;
  req_bodyError : option Js.ErrorWithStatus;
}.

(** The route of a router mounted at [prefix] that has this method and
    exactly this path. *)
Fixpoint findRoute (prefix : string) (router : list Health.Route)
    (m : Health.Method) (path : string) : option Health.Route :=
  match router with
  | [] => None
  | route :: router' =>
      if Health.Method_eqb (Health.method route) m
         && String.eqb (prefix +:+ Health.path route) path
      then Some route
      else findRoute prefix router' m path
  end.

Fixpoint dispatch (mounts : list (string * list Health.Route))
    (m : Health.Method) (path : string) : option Health.Route :=
  match mounts with
  | [] => None
  | (prefix, router) :: mounts' =>
      match findRoute prefix router m path with
      | Some route => Some route
      | None => dispatch mounts' m path
      end
  end.

(** Where a request ends in the chain of app.ts (lines 10-24).
    [answered c]: a handler of the sources took it and ended as [c] (after
    a throw Express takes over, which is not followed here).
    [preflight]: the cors package itself answers an allowed OPTIONS request.
    [unrouted]: no route of the sources has exactly this method and path;
    the request goes on to Express's own matching of other spellings of a
    path and to the handlers that are not under src. *)
Inductive Outcome :=
| answered (c : Express.Completion)
| preflight
| unrouted.

(** The chain for one request: [helmet()] only adds headers; the CORS stage
    answers a denied request; [express.json()] hands a body it cannot parse
    to the error handler; then the routes. *)
Definition handle (env0 : Node.Env) (clock : Health.Clock) (req : Request)
    (res : Express.Response) (p : Node.Process) : Outcome * Node.Process :=
  let '(denied, p) := corsStage env0 (req_trace req) (req_origin req) res p in
  match denied with
  | Some c => (answered c, p)
  | None =>
      match req_method req with
      | Health.OPTIONS => (preflight, p)
      | _ =>
          match req_bodyError req with
          | Some err =>
              let '(c, p) :=
                ErrorHandler.errorHandler (ErrorHandler.isDevelopment env0) err res p in
              (answered c, p)
          | None =>
              match dispatch mounts (req_method req) (req_path req) with
              | Some route => (answered (Health.handler route clock res), p)
              | None => (unrouted, p)
              end
          end
      end
  end.

(** [const port = process.env.PORT ?? 3000] (line 7), evaluated when the
    module is loaded: [??] replaces [undefined] only. *)
Definition port (env0 : Node.Env) : ServerStartup.Port :=
  match env0 !! "PORT" with
  | Some s => ServerStartup.port_string s
  | None => ServerStartup.port_number 3000%float
  end.

End App.

(** ** Concrete inputs for the examples below *)
Module Examples.

(** A production environment with the given [ALLOWED_ORIGINS]. *)
Definition production (allowed : string) : Node.Env :=
  <[ "ALLOWED_ORIGINS" := allowed ]> (<[ "NODE_ENV" := "production" ]> ∅).

Definition development : Node.Env := <[ "NODE_ENV" := "development" ]> ∅.

(** A process with environment [env] that wrote nothing yet. *)
Definition process (env : Node.Env) : Node.Process :=
  {| Node.env := env; Node.console := [] |}.

(** An error carrying a [status], as in [(error as any).status = 404]. *)
Definition failure (msg trace : string) (code : Js.number) : Js.ErrorWithStatus :=
  {| Js.name := "Error"; Js.message := msg; Js.stack := Some trace;
     Js.status := Some code; Js.statusCode := None |}.

Definition net (addr : string) (fam : Node.Family) (int : bool) : Node.NetworkInterfaceInfo :=
  {| Node.address := addr; Node.netmask := "255.255.255.0"; Node.family := fam;
     Node.mac := "00:00:00:00:00:00"; Node.internal := int; Node.cidr := None |}.

(** A loopback interface, then an interface with an IPv6 and an IPv4
    address, then a second external IPv4 interface. *)
Definition interfaces : Node.Interfaces :=
  [ ("lo", Some [net "127.0.0.1" Node.IPv4 true; net "::1" Node.IPv6 true]);
    ("eth0", Some [net "fe80::1" Node.IPv6 false; net "192.168.1.20" Node.IPv4 false]);
    ("wlan0", Some [net "10.0.0.5" Node.IPv4 false]) ].

Definition loopback_only : Node.Interfaces :=
  [ ("lo", Some [net "127.0.0.1" Node.IPv4 true; net "::1" Node.IPv6 true]) ].

Definition clock : Health.Clock :=
  {| Health.now := 1793555696789%Z; Health.uptime := 12.5%float |}.

(** A GET of /api/health carrying the given Origin header and no body. *)
Definition health_request (origin : option string) : App.Request :=
  {| App.req_method := Health.GET; App.req_path := "/api/health";
     App.req_origin := origin; App.req_trace := "at origin";
     App.req_bodyError := None |}.

(** A failure without a stack, and one whose status is no HTTP status. *)
Definition stackless (msg : string) (code : Js.number) : Js.ErrorWithStatus :=
  {| Js.name := "Error"; Js.message := msg; Js.stack := None;
     Js.status := Some code; Js.statusCode := None |}.

(** A terminal without colours and without a box, in a locale that writes
    the time of day of the example clock as below. *)
Definition terminal : ServerStartup.Terminal :=
  {| ServerStartup.green := λ s, s;
     ServerStartup.bold := λ s, s;
     ServerStartup.dim := λ s, s;
     ServerStartup.boxen := λ s _, s;
     ServerStartup.toLocaleTimeString := λ _, "5:54:56 PM";
     ServerStartup.numberToString := λ _, "3000" |}.

End Examples.

(** * Properties *)

(** ** The JavaScript built-ins *)
Section JsFacts.

Lemma ToBoolean_zero : Js.ToBoolean 0%float = false.
Proof. reflexivity. Qed.

Lemma ToBoolean_nan : Js.ToBoolean nan = false.
Proof. reflexivity. Qed.

Lemma ToBoolean_500 : Js.ToBoolean 500%float = true.
Proof. reflexivity. Qed.

Lemma not_true_iff (o : option string) :
  Js.not o = true ↔ o = None ∨ o = Some EmptyString.
Proof.
  destruct o as [[|c s]|]; simpl; split; auto; try discriminate.
  intros [H|H]; discriminate.
Qed.

Lemma not_false_iff (o : option string) :
  Js.not o = false ↔ ∃ s, o = Some s ∧ s ≠ EmptyString.
Proof.
  split.
  - destruct o as [[|c s]|]; simpl; intros H; try discriminate H.
    by exists (String c s).
  - intros (s & -> & H). by destruct s.
Qed.

Lemma includes_elem_of (xs : list string) (x : string) :
  Js.includes xs x = true ↔ x ∈ xs.
Proof.
  unfold Js.includes. rewrite existsb_exists. split.
  - intros (y & Hy & E). apply String.eqb_eq in E as ->. by apply list_elem_of_In.
  - intros H. exists x. split; [by apply list_elem_of_In|apply String.eqb_refl].
Qed.

Lemma split_nonempty sep s : Js.split sep s ≠ [].
Proof. destruct s as [|c s]; simpl; [done|]. repeat case_match; done. Qed.

(** [split] loses nothing: joining the pieces gives the string back. *)
Lemma join_split sep s : Js.join sep (Js.split sep s) = s.
Proof.
  induction s as [|c s IH]; [done|]. simpl.
  destruct (Ascii.eqb_spec c sep) as [->|Hc].
  - pose proof (split_nonempty sep s). destruct (Js.split sep s) as [|w ws] eqn:E; [done|].
    simpl in *. by rewrite IH.
  - destruct (Js.split sep s) as [|w ws] eqn:E; [by destruct (split_nonempty sep s)|].
    simpl in *. destruct ws; simpl in *; by rewrite <- IH.
Qed.

(** No piece of [split] holds the separator. *)
Lemma split_pieces sep s : Forall (λ w, Js.string_includes w sep = false) (Js.split sep s).
Proof.
  induction s as [|c s IH]; simpl; [by repeat constructor|].
  destruct (Ascii.eqb_spec c sep) as [->|Hc]; [by constructor|].
  destruct (Js.split sep s) as [|w ws]; [|inversion IH; subst]; constructor; simpl;
    try done; destruct (Ascii.eqb_spec c sep); done.
Qed.

End JsFacts.

(** ** The Origin Policy Evaluator (corsConfig.ts) *)
Section CorsFacts.
Import CorsConfig.

Lemma isDevelopment_production (env0 : Node.Env) :
  isDevelopment env0 = false ↔ env0 !! "NODE_ENV" = Some "production".
Proof.
  unfold isDevelopment. rewrite negb_false_iff, bool_decide_eq_true. done.
Qed.

Lemma isDevelopment_default (env0 : Node.Env) :
  isDevelopment env0 = true ↔ env0 !! "NODE_ENV" ≠ Some "production".
Proof.
  unfold isDevelopment. rewrite negb_true_iff, bool_decide_eq_false. done.
Qed.

Lemma elem_of_allowedOriginsSet (env : Node.Env) (s : string) :
  s ∈ allowedOriginsSet env ↔ Js.includes (allowedOrigins env) s = true.
Proof.
  unfold allowedOriginsSet. by rewrite elem_of_list_to_set, includes_elem_of.
Qed.

(** The callback is one of the two calls of the source. *)
Lemma origin_callback isDev trace o p :
  (origin isDev trace o p).1 = callback None (Some true) ∨
  (origin isDev trace o p).1 =
    callback (Some (Js.new_Error trace "Not allowed by CORS")) None.
Proof. unfold origin. repeat case_match; simpl; auto. Qed.

(** The origin function with the list of the current environment is the
    specification's evaluator on that list. *)
Lemma origin_derivedOnce_current isDev trace o p :
  origin isDev trace o p = origin_derivedOnce isDev (allowedOrigins (Node.env p)) trace o p.
Proof. reflexivity. Qed.

End CorsFacts.

Section OriginPolicy.
Import CorsConfig.

(** C1 (as stated) fails: in production the empty string is a present
    Request Origin that is allowed although it is not in the Allowed
    Origins Set, because [!origin] holds for it. *)
Lemma origin_present_iff_member_fails :
  ¬ (∀ (env0 : Node.Env) (trace : string) (o : option string)
       (p : Node.Process) (s : string),
       env0 !! "NODE_ENV" = Some "production" →
       o = Some s →
       (allowed (origin (isDevelopment env0) trace o p).1 = true
        ↔ s ∈ allowedOriginsSet (Node.env p))).
Proof.
  intros H.
  pose (env0 := Examples.production "https://app.example.com").
  destruct (H env0 "" (Some "") (Examples.process env0) ""
              ltac:(reflexivity) ltac:(reflexivity)) as [Hin _].
  specialize (Hin ltac:(reflexivity)).
  apply elem_of_allowedOriginsSet in Hin. vm_compute in Hin. discriminate Hin.
Qed.

(** C1 (amended): the rules of the Origin Policy Evaluator, in order. A
    Request Origin that is absent or the empty string is allowed in both
    modes; in development mode every origin is allowed; in production mode
    a non-empty origin is allowed exactly when it is a member of the
    Allowed Origins Set, and is denied, with the error
    [Not allowed by CORS], otherwise. *)
Theorem origin_rules (env0 : Node.Env) (trace : string) (o : option string)
    (p : Node.Process) :
  let r := (origin (isDevelopment env0) trace o p).1 in
  (o = None ∨ o = Some EmptyString → allowed r = true) ∧
  (env0 !! "NODE_ENV" ≠ Some "production" → allowed r = true) ∧
  (∀ s, env0 !! "NODE_ENV" = Some "production" → o = Some s → s ≠ EmptyString →
     (allowed r = true ↔ s ∈ allowedOriginsSet (Node.env p)) ∧
     (s ∉ allowedOriginsSet (Node.env p) →
      r = callback (Some (Js.new_Error trace "Not allowed by CORS")) None)).
Proof.
  cbv zeta. split; [|split].
  - intros Ho%not_true_iff. unfold origin. by rewrite Ho.
  - intros Hdev%isDevelopment_default. unfold origin. rewrite Hdev.
    by destruct (Js.not o).
  - intros s Hprod%isDevelopment_production -> Hs.
    assert (Hnot : Js.not (Some s) = false) by (apply not_false_iff; eauto).
    unfold origin. rewrite Hnot, Hprod. cbv zeta. cbn [Js.narrowed].
    rewrite elem_of_allowedOriginsSet.
    destruct (Js.includes (allowedOrigins (Node.env p)) s); simpl;
      (split; [tauto | intros H; try done; by destruct H]).
Qed.

Lemma origin_rules_witness :
  let env0 := Examples.production "https://app.example.com,https://www.example.com" in
  let p := Examples.process env0 in
  allowed (origin (isDevelopment env0) "" (Some "https://www.example.com") p).1 = true ∧
  allowed (origin (isDevelopment env0) "" (Some "https://evil.example") p).1 = false ∧
  allowed (origin (isDevelopment env0) "" None p).1 = true ∧
  allowed (origin (isDevelopment Examples.development) "" (Some "https://evil.example") p).1 = true.
Proof.
  cbv zeta.
  set (env0 := Examples.production "https://app.example.com,https://www.example.com").
  set (p := Examples.process env0).
  assert (Hprod : env0 !! "NODE_ENV" = Some "production") by reflexivity.
  pose proof (origin_rules env0 "" (Some "https://www.example.com") p) as (_ & _ & Hin).
  pose proof (origin_rules env0 "" (Some "https://evil.example") p) as (_ & _ & Hout).
  pose proof (origin_rules env0 "" None p) as (Hnone & _ & _).
  pose proof (origin_rules Examples.development "" (Some "https://evil.example") p)
    as (_ & Hdev & _).
  destruct (Hin _ Hprod eq_refl ltac:(discriminate)) as [Hin1 _].
  destruct (Hout _ Hprod eq_refl ltac:(discriminate)) as [_ Hout2].
  split; [|split; [|split]].
  - apply Hin1. apply elem_of_allowedOriginsSet. reflexivity.
  - rewrite Hout2; [reflexivity|].
    rewrite elem_of_allowedOriginsSet. vm_compute. discriminate.
  - apply Hnone. by left.
  - apply Hdev. vm_compute. discriminate.
Defined.

End OriginPolicy.

Section AllowedOriginsLifetime.
Import CorsConfig.

Lemma allowedOrigins_insert_other (env : Node.Env) (k v : string) :
  k ≠ "ALLOWED_ORIGINS" → allowedOrigins (<[ k := v ]> env) = allowedOrigins env.
Proof. intros Hk. unfold allowedOrigins. by rewrite lookup_insert_ne. Qed.

Lemma origin_env isDev trace o p :
  Node.env (origin isDev trace o p).2 = Node.env p.
Proof. unfold origin. repeat case_match; reflexivity. Qed.

(** The callback depends on the process through its environment only. *)
Lemma origin_callback_env isDev trace o p p' :
  Node.env p = Node.env p' →
  (origin isDev trace o p).1 = (origin isDev trace o p').1.
Proof. intros E. unfold origin. rewrite E. repeat case_match; reflexivity. Qed.

Lemma origin_derivedOnce_callback isDev startupOrigins trace o p p' :
  (origin_derivedOnce isDev startupOrigins trace o p).1 =
  (origin_derivedOnce isDev startupOrigins trace o p').1.
Proof. unfold origin_derivedOnce. repeat case_match; reflexivity. Qed.

(** Handling requests never changes the configuration: over a run of
    requests the environment stays what it was, so every request of the run
    is judged by the list derived from that one environment. *)
Lemma originRun_env isDev requests : ∀ p,
  Node.env (originRun isDev requests p).2 = Node.env p.
Proof.
  induction requests as [|[trace o] requests IH]; intros p; [reflexivity|].
  cbn [originRun].
  destruct (origin isDev trace o p) as [cb p1] eqn:E1.
  destruct (originRun isDev requests p1) as [cbs p2] eqn:E2.
  cbn [snd]. change p2 with (cbs, p2).2. rewrite <- E2, IH.
  change p1 with (cb, p1).2. rewrite <- E1. apply origin_env.
Qed.

Lemma originRun_callbacks isDev requests : ∀ p,
  (originRun isDev requests p).1 =
  map (λ '(trace, o),
         (origin_derivedOnce isDev (allowedOrigins (Node.env p)) trace o p).1)
      requests.
Proof.
  induction requests as [|[trace o] requests IH]; intros p; [reflexivity|].
  cbn [originRun map].
  destruct (origin isDev trace o p) as [cb p1] eqn:E1.
  destruct (originRun isDev requests p1) as [cbs p2] eqn:E2.
  cbn [fst]. f_equal.
  - rewrite <- origin_derivedOnce_current. by rewrite E1.
  - change cbs with (cbs, p2).1. rewrite <- E2, IH.
    assert (Henv : Node.env p1 = Node.env p).
    { change p1 with (cb, p1).2. rewrite <- E1. apply origin_env. }
    rewrite Henv. apply map_ext. intros [trace' o'].
    apply origin_derivedOnce_callback.
Qed.

(** C3 (as stated) fails: the array of allowed origins is not a value
    derived once at startup. It is derived inside the origin function, from
    the environment as it is when the request is handled; with an
    environment that changed since startup, the request is judged by the
    new list. *)
Lemma allowedOrigins_derived_once_fails :
  ¬ (∀ (env0 : Node.Env) (trace : string) (o : option string) (p : Node.Process),
       (origin (isDevelopment env0) trace o p).1 =
       (origin_derivedOnce (isDevelopment env0) (allowedOrigins env0) trace o p).1).
Proof.
  intros H.
  specialize (H (Examples.production "https://a.example") ""
                (Some "https://a.example")
                (Examples.process (Examples.production "https://b.example"))).
  vm_compute in H. discriminate H.
Qed.

(** C3 (amended): the mode flag is fixed at startup, and a request never
    changes the process configuration; the array of allowed origins is
    derived anew from [ALLOWED_ORIGINS] of the configuration each time a
    request reaches the production check, so the decision is the one of the
    specification's evaluator on the list of the configuration at that
    time, it does not depend on any other variable of it, and it is the
    decision on the startup list whenever [ALLOWED_ORIGINS] still has its
    startup value. *)
Theorem origin_consults_current_configuration (env0 : Node.Env) (trace : string)
    (o : option string) (p : Node.Process) :
  let r := origin (isDevelopment env0) trace o p in
  Node.env r.2 = Node.env p ∧
  r.1 = (origin_derivedOnce (isDevelopment env0)
           (allowedOrigins (Node.env p)) trace o p).1 ∧
  (∀ k v, k ≠ "ALLOWED_ORIGINS" →
     (origin (isDevelopment env0) trace o
        {| Node.env := <[ k := v ]> (Node.env p); Node.console := Node.console p |}).1
     = r.1) ∧
  (Node.env p !! "ALLOWED_ORIGINS" = env0 !! "ALLOWED_ORIGINS" →
     r.1 = (origin_derivedOnce (isDevelopment env0) (allowedOrigins env0) trace o p).1).
Proof.
  cbv zeta. split; [|split; [|split]].
  - unfold origin. repeat case_match; reflexivity.
  - reflexivity.
  - intros k v Hk. unfold origin. cbn [Node.env].
    rewrite allowedOrigins_insert_other by done.
    repeat case_match; reflexivity.
  - intros E. rewrite origin_derivedOnce_current.
    unfold allowedOrigins. by rewrite E.
Qed.

Lemma origin_consults_current_configuration_witness :
  let env0 := Examples.production "https://a.example" in
  let p := Examples.process env0 in
  (origin (isDevelopment env0) "" (Some "https://a.example") p).1 =
  (origin_derivedOnce (isDevelopment env0) (allowedOrigins env0) ""
     (Some "https://a.example") p).1.
Proof.
  cbv zeta.
  apply (origin_consults_current_configuration
           (Examples.production "https://a.example") "" (Some "https://a.example")
           (Examples.process (Examples.production "https://a.example"))).
  reflexivity.
Defined.

End AllowedOriginsLifetime.

Section CorsOptionsFacts.
Import CorsConfig.

(** C6: whenever the origin function of the configuration allows a request,
    the configuration advertises credentials and permits exactly the
    methods GET, POST, PUT, DELETE, PATCH, OPTIONS and exactly the request
    headers Content-Type and Authorization. *)
Theorem corsConfig_on_allow (isDev : bool) (trace : string) (o : option string)
    (p : Node.Process) :
  let cfg := corsConfig isDev in
  allowed (opt_origin cfg trace o p).1 = true →
  credentials cfg = true ∧
  methods cfg = ["GET"; "POST"; "PUT"; "DELETE"; "PATCH"; "OPTIONS"] ∧
  (∀ m, m ∈ methods cfg ↔
        m ∈ ({[ "GET"; "POST"; "PUT"; "DELETE"; "PATCH"; "OPTIONS" ]} : gset string)) ∧
  allowedHeaders cfg = ["Content-Type"; "Authorization"] ∧
  (∀ h, h ∈ allowedHeaders cfg ↔
        h ∈ ({[ "Content-Type"; "Authorization" ]} : gset string)).
Proof.
  cbv zeta. intros _. cbn [corsConfig credentials methods allowedHeaders].
  split; [reflexivity|]. split; [reflexivity|]. split; [|split; [reflexivity|]].
  - intros m. by rewrite <- (elem_of_list_to_set (C := gset string)).
  - intros h. by rewrite <- (elem_of_list_to_set (C := gset string)).
Qed.

Lemma corsConfig_on_allow_witness :
  let env0 := Examples.production "https://app.example.com" in
  let cfg := corsConfig (isDevelopment env0) in
  allowed (opt_origin cfg "" (Some "https://app.example.com") (Examples.process env0)).1 = true ∧
  credentials cfg = true ∧
  ("PATCH" ∈ methods cfg) ∧ ("TRACE" ∉ methods cfg) ∧
  ("Authorization" ∈ allowedHeaders cfg) ∧ ("X-Api-Key" ∉ allowedHeaders cfg).
Proof.
  cbv zeta.
  set (env0 := Examples.production "https://app.example.com").
  assert (Hallow : allowed (opt_origin (corsConfig (isDevelopment env0)) ""
                     (Some "https://app.example.com") (Examples.process env0)).1 = true)
    by reflexivity.
  destruct (corsConfig_on_allow (isDevelopment env0) "" (Some "https://app.example.com")
              (Examples.process env0) Hallow) as (Hc & _ & Hm & _ & Hh).
  split; [exact Hallow|]. split; [exact Hc|].
  split; [apply Hm; by vm_compute|]. split; [rewrite Hm; by vm_compute|].
  split; [apply Hh; by vm_compute|rewrite Hh; by vm_compute].
Defined.

End CorsOptionsFacts.

(** ** The Error Responder (errorHandler.ts) *)
Section ErrorResponder.
Import ErrorHandler.

Lemma errorHandler_isDevelopment_production (env0 : Node.Env) :
  isDevelopment env0 = false ↔ env0 !! "NODE_ENV" = Some "production".
Proof. apply isDevelopment_production. Qed.

Lemma errorHandler_isDevelopment_default (env0 : Node.Env) :
  isDevelopment env0 = true ↔ env0 !! "NODE_ENV" ≠ Some "production".
Proof. apply isDevelopment_default. Qed.

(** Both modules read the same variable: their flags agree. *)
Lemma isDevelopment_agree (env0 : Node.Env) :
  isDevelopment env0 = CorsConfig.isDevelopment env0.
Proof. reflexivity. Qed.

Lemma ToBoolean_false_iff (n : Js.number) :
  Js.ToBoolean n = false ↔ PrimFloat.is_zero n = true ∨ PrimFloat.is_nan n = true.
Proof. unfold Js.ToBoolean. rewrite negb_false_iff. apply orb_true_iff. Qed.

(** [res.status] on a code it accepts, and on one it rejects. *)
Lemma status_valid code res :
  Express.validStatus code = true →
  Express.status code res =
  inr {| Express.statusCode := code; Express.body := Express.body res |}.
Proof.
  unfold Express.validStatus, Express.status.
  intros [Hint Hrange]%andb_true_iff. apply negb_true_iff in Hrange.
  by rewrite Hint, Hrange.
Qed.

Lemma status_invalid code res :
  Express.validStatus code = false →
  Express.status code res = inl (Express.TypeError code) ∨
  Express.status code res = inl (Express.RangeError code).
Proof.
  unfold Express.validStatus, Express.status. intros H.
  destruct (Js.isInteger code); cbn [negb andb] in *; [|by left].
  apply negb_false_iff in H. rewrite H. by right.
Qed.

Example status_examples :
  Express.validStatus 404%float = true ∧ Express.validStatus 500%float = true ∧
  Express.validStatus 99%float = false ∧ Express.validStatus 404.5%float = false ∧
  Express.validStatus 1000%float = false ∧ Express.validStatus nan = false.
Proof. repeat split; reflexivity. Qed.

(** The handler sends exactly when [res.status] accepts the resolved code,
    and then with that code and the JSON of the body of lines 30-34. *)
Lemma errorHandler_valid isDev err res p :
  Express.validStatus (resolveStatusCode err) = true →
  (errorHandler isDev err res p).1 =
  Express.sends {| Express.statusCode := resolveStatusCode err;
                   Express.body := Some (Js.JSON (responseBody isDev err)) |}.
Proof.
  intros Hv. unfold errorHandler. cbv zeta. cbn [fst].
  by rewrite (status_valid _ _ Hv).
Qed.

Lemma errorHandler_invalid isDev err res p :
  Express.validStatus (resolveStatusCode err) = false →
  (errorHandler isDev err res p).1 =
    Express.throws (Express.TypeError (resolveStatusCode err)) ∨
  (errorHandler isDev err res p).1 =
    Express.throws (Express.RangeError (resolveStatusCode err)).
Proof.
  intros Hv. unfold errorHandler. cbv zeta. cbn [fst].
  destruct (status_invalid _ res Hv) as [-> | ->]; auto.
Qed.

Lemma errorHandler_sends_inv isDev err res p r :
  (errorHandler isDev err res p).1 = Express.sends r →
  Express.validStatus (resolveStatusCode err) = true ∧
  r = {| Express.statusCode := resolveStatusCode err;
         Express.body := Some (Js.JSON (responseBody isDev err)) |}.
Proof.
  intros Hr. destruct (Express.validStatus (resolveStatusCode err)) eqn:Hv.
  - rewrite (errorHandler_valid _ _ _ _ Hv) in Hr. by injection Hr as <-.
  - destruct (errorHandler_invalid isDev err res p Hv) as [E|E];
      rewrite E in Hr; discriminate Hr.
Qed.

(** The failure is logged, whatever the mode and whatever [res.status]
    does, and nothing else is. *)
Lemma errorHandler_logs isDev err res p :
  Node.console (errorHandler isDev err res p).2 =
  Node.console p ++ [Node.console_error "❌ Error:" err].
Proof. reflexivity. Qed.

Lemma resolveStatusCode_truthy_status err s :
  Js.status err = Some s → Js.ToBoolean s = true → resolveStatusCode err = s.
Proof.
  intros Hs Ht. unfold resolveStatusCode, Js.or. rewrite Hs, Ht. simpl. by rewrite Ht.
Qed.

Lemma resolveStatusCode_no_status err :
  Js.status err = None → Js.statusCode err = None → resolveStatusCode err = 500%float.
Proof. intros Hs Hc. unfold resolveStatusCode, Js.or. by rewrite Hs, Hc. Qed.

Lemma responseBody_production err :
  responseBody false err =
  {[ "success" := Js.Boolean false; "error" := Js.Str "Internal server error" ]}.
Proof. reflexivity. Qed.

Lemma responseBody_development err :
  responseBody true err =
  {[ "success" := Js.Boolean false; "error" := Js.Str (Js.message err);
     "stack" := Js.of_optional_string (Js.stack err) ]}.
Proof. reflexivity. Qed.

(** The bodies as sent: in production nothing is left out; in development
    the [stack] property is left out when the failure has no stack. *)
Lemma JSON_production err :
  Js.JSON (responseBody false err) =
  {[ "success" := Js.Boolean false; "error" := Js.Str "Internal server error" ]}.
Proof. reflexivity. Qed.

Lemma JSON_development err :
  Js.JSON (responseBody true err) =
  match Js.stack err with
  | Some trace =>
      {[ "success" := Js.Boolean false; "error" := Js.Str (Js.message err);
         "stack" := Js.Str trace ]}
  | None => {[ "success" := Js.Boolean false; "error" := Js.Str (Js.message err) ]}
  end.
Proof. destruct (Js.stack err) eqn:E; unfold responseBody; rewrite E; reflexivity. Qed.




(** In production mode a failure with a code [res.status] accepts gets
    exactly [{success: false, error: "Internal server error"}], without a
    [stack] field, under the resolved code: a truthy valid [status] such as
    404 stays. *)
Lemma errorHandler_production (env0 : Node.Env) (err : Js.ErrorWithStatus)
    (res : Express.Response) (p : Node.Process) :
  env0 !! "NODE_ENV" = Some "production" →
  Express.validStatus (resolveStatusCode err) = true →
  (errorHandler (isDevelopment env0) err res p).1 =
  Express.sends
    {| Express.statusCode := resolveStatusCode err;
       Express.body :=
         Some {[ "success" := Js.Boolean false;
                 "error" := Js.Str "Internal server error" ]} |}.
Proof.
  intros Hprod%errorHandler_isDevelopment_production Hv. rewrite Hprod.
  by rewrite (errorHandler_valid _ _ _ _ Hv), JSON_production.
Qed.

(** C2, at the failing input: in production a failure with [status: 99]
    gets no JSON body at all. [res.status(99)] throws a [RangeError] before
    [res.json] is reached, so the handler that is documented to answer
    every error with JSON leaves the answer to Express. *)
Theorem errorHandler_production_throws :
  (errorHandler (isDevelopment (Examples.production ""))
     (Examples.failure "X" "at f" 99%float) Express.fresh
     (Examples.process (Examples.production ""))).1 =
  Express.throws (Express.RangeError 99%float).
Proof. reflexivity. Qed.




(** C10: in production mode two failures with the same resolved status code
    end the handler in the same way, whatever their messages and stacks
    (and whatever the console held): the same response when one is sent,
    bodies included, and the same exception otherwise. *)
Theorem errorHandler_production_noninterference (env0 : Node.Env)
    (err1 err2 : Js.ErrorWithStatus) (res : Express.Response) (p1 p2 : Node.Process) :
  env0 !! "NODE_ENV" = Some "production" →
  resolveStatusCode err1 = resolveStatusCode err2 →
  (∀ r1 r2,
     (errorHandler (isDevelopment env0) err1 res p1).1 = Express.sends r1 →
     (errorHandler (isDevelopment env0) err2 res p2).1 = Express.sends r2 →
     Express.body r1 = Express.body r2) ∧
  (errorHandler (isDevelopment env0) err1 res p1).1 =
  (errorHandler (isDevelopment env0) err2 res p2).1.
Proof.
  intros Hprod%errorHandler_isDevelopment_production Hcode. rewrite Hprod.
  assert (E : (errorHandler false err1 res p1).1 = (errorHandler false err2 res p2).1).
  { unfold errorHandler. cbv zeta. cbn [fst]. rewrite Hcode.
    destruct (Express.status (resolveStatusCode err2) res); [done|].
    by rewrite !responseBody_production. }
  split; [|exact E]. intros r1 r2 H1 H2. rewrite E, H2 in H1. by injection H1 as ->.
Qed.

Lemma errorHandler_production_noninterference_witness :
  let env0 := Examples.production "" in
  (errorHandler (isDevelopment env0)
     (Examples.failure "connect ECONNREFUSED 10.0.0.7:5432" "at Pool.connect" 503%float)
     Express.fresh (Examples.process env0)).1 =
  (errorHandler (isDevelopment env0)
     {| Js.name := "Error"; Js.message := "busy"; Js.stack := None;
        Js.status := None; Js.statusCode := Some 503%float |}
     Express.fresh (Examples.process env0)).1.
Proof.
  cbv zeta.
  apply (errorHandler_production_noninterference (Examples.production "")); reflexivity.
Defined.

End ErrorResponder.

(** ** The Date arithmetic *)
Section DateFacts.
Import Date.
Local Open Scope Z_scope.

Lemma DayFromYear_succ y : DayFromYear (y + 1) = DayFromYear y + DaysInYear y.
Proof.
  unfold DayFromYear, DaysInYear.
  repeat match goal with |- context [?a =? ?b] => destruct (Z.eqb_spec a b) end;
    simpl; Z.div_mod_to_equations; lia.
Qed.


Lemma YearFromDay_spec d :
  DayFromYear (YearFromDay d) <= d < DayFromYear (YearFromDay d + 1).
Proof.
  unfold YearFromDay; cbv zeta.
  set (q := (400 * d) `div` 146097).
  assert (Hq : 146097 * q <= 400 * d < 146097 * q + 146097).
  { subst q. Z.div_mod_to_equations. lia. }
  clearbody q.
  destruct (Z.ltb_spec d (DayFromYear (1970 + q)));
    [|destruct (Z.leb_spec (DayFromYear (1970 + q + 1)) d)];
    unfold DayFromYear in *; Z.div_mod_to_equations; lia.
Qed.

Lemma append_String x (a b : string) : String x a +:+ b = String x (a +:+ b).
Proof. reflexivity. Qed.

Lemma append_empty (b : string) : EmptyString +:+ b = b.
Proof. reflexivity. Qed.

Lemma append_assoc (a b c : string) : (a +:+ b) +:+ c = a +:+ (b +:+ c).
Proof. induction a as [|x a IH]; [done|]. rewrite !append_String. by f_equal. Qed.

Lemma digit_cases (d : Z) :
  0 <= d <= 9 →
  d = 0 ∨ d = 1 ∨ d = 2 ∨ d = 3 ∨ d = 4 ∨ d = 5 ∨ d = 6 ∨ d = 7 ∨ d = 8 ∨ d = 9.
Proof. lia. Qed.

Lemma read_digit_digit d rest :
  0 <= d <= 9 → read_digit (String (digit d) rest) = Some (d, rest).
Proof. intros H. destruct (digit_cases d H) as [->|H']; [done|]. repeat (destruct H' as [->|H']; [done|]). by subst. Qed.

Lemma digit_not_sign d :
  0 <= d <= 9 → Ascii.eqb (digit d) "+" = false ∧ Ascii.eqb (digit d) "-" = false.
Proof. intros H. destruct (digit_cases d H) as [->|H']; [done|]. repeat (destruct H' as [->|H']; [done|]). by subst. Qed.

Lemma read_digits_digits w : ∀ n rest,
  0 <= n < 10 ^ Z.of_nat w → read_digits w (digits w n +:+ rest) = Some (n, rest).
Proof.
  induction w as [|w IH]; intros n rest Hn.
  - simpl in *. f_equal. f_equal. lia.
  - rewrite Nat2Z.inj_succ, Z.pow_succ_r in Hn by lia.
    cbn [read_digits digits]. rewrite append_assoc, append_String, append_empty.
    rewrite IH by (Z.div_mod_to_equations; lia). cbn [mbind option_bind].
    rewrite read_digit_digit by (Z.div_mod_to_equations; lia). cbn [mbind option_bind].
    f_equal. f_equal. Z.div_mod_to_equations; lia.
Qed.

Lemma digits_head w n rest :
  ∃ d s, 0 <= d <= 9 ∧ digits (S w) n +:+ rest = String (digit d) s.
Proof.
  revert n rest. induction w as [|w IH]; intros n rest.
  - exists (n `mod` 10), rest. split; [Z.div_mod_to_equations; lia|done].
  - destruct (IH (n `div` 10) (String (digit (n `mod` 10)) rest)) as (d & s' & Hd & E).
    exists d, s'. split; [done|].
    change (digits (S (S w)) n) with (digits (S w) (n `div` 10) +:+ String (digit (n `mod` 10)) EmptyString).
    rewrite append_assoc. exact E.
Qed.

Lemma read_year_yearString y rest :
  -999999 <= y <= 999999 → read_year (yearString y +:+ rest) = Some (y, rest).
Proof.
  intros Hy. unfold yearString.
  destruct (Z.leb_spec 0 y); [destruct (Z.leb_spec y 9999)|]; cbn [andb].
  - destruct (digits_head 3 y rest) as (d & s' & Hd & E).
    unfold read_year. rewrite E. destruct (digit_not_sign d Hd) as [-> ->].
    rewrite <- E. apply read_digits_digits. lia.
  - destruct (Z.ltb_spec y 0); [lia|]. rewrite append_String; cbn [read_year Ascii.eqb Bool.eqb].
    apply read_digits_digits. lia.
  - destruct (Z.ltb_spec y 0); [|lia]. rewrite append_String; cbn [read_year Ascii.eqb Bool.eqb].
    rewrite read_digits_digits by lia. cbn [mbind option_bind].
    destruct (Z.eqb_spec (- y) 0); [lia|]. f_equal. f_equal. lia.
Qed.

Lemma DayWithinYear_bounds t :
  0 <= DayWithinYear t < DaysInYear (YearFromTime t).
Proof.
  unfold DayWithinYear, YearFromTime.
  pose proof (YearFromDay_spec (Day t)) as H.
  rewrite DayFromYear_succ in H. lia.
Qed.

Lemma DaysInYear_cases y : DaysInYear y = 365 ∨ DaysInYear y = 366.
Proof. unfold DaysInYear. repeat case_match; auto. Qed.

Lemma date_fields t :
  let y := YearFromTime t in
  let m := MonthFromTime t in
  let d := DateFromTime t in
  0 <= m <= 11 ∧ 1 <= d <= DaysInMonth y m ∧ MakeDay y m d = Day t.
Proof.
  cbv zeta.
  pose proof (DayWithinYear_bounds t) as Hb.
  unfold MakeDay, DateFromTime, MonthFromTime, InLeapYear, DaysInMonth, daysBeforeMonth, leap.
  assert (E : Day t = DayFromYear (YearFromTime t) + DayWithinYear t) by (unfold DayWithinYear; lia).
  rewrite E. set (w := DayWithinYear t) in *. clearbody w.
  destruct (DaysInYear_cases (YearFromTime t)) as [H|H]; rewrite H in *; simpl (_ =? _);
    cbv iota;
    repeat match goal with |- context [?a <? ?b] => destruct (Z.ltb_spec a b) end;
    lia.
Qed.

Lemma time_fields t :
  let h := HourFromTime t in
  let mi := MinFromTime t in
  let s := SecFromTime t in
  let ms := msFromTime t in
  (0 <= h <= 23 ∧ 0 <= mi <= 59 ∧ 0 <= s <= 59 ∧ 0 <= ms <= 999) ∧
  MakeDate (Day t) (MakeTime h mi s ms) = t.
Proof.
  cbv zeta.
  unfold MakeDate, MakeTime, Day, HourFromTime, MinFromTime, SecFromTime, msFromTime,
    msPerDay, msPerHour, msPerMinute, msPerSecond.
  Z.div_mod_to_equations. lia.
Qed.

Lemma YearFromTime_range t :
  -8640000000000000 <= t <= 8640000000000000 →
  -271821 <= YearFromTime t <= 275760.
Proof.
  intros Ht. unfold YearFromTime.
  pose proof (YearFromDay_spec (Day t)) as H.
  set (y := YearFromDay (Day t)) in *. clearbody y.
  unfold DayFromYear, Day, msPerDay in H. Z.div_mod_to_equations. lia.
Qed.

(** [toISOString] always yields a string of the Date Time String Format,
    and parsing it gives the time value back. *)
Lemma parse_toISOString t :
  -8640000000000000 <= t <= 8640000000000000 → parse (toISOString t) = Some t.
Proof.
  intros Ht.
  pose proof (YearFromTime_range t Ht) as Hy.
  destruct (date_fields t) as (Hm & Hd & Hday).
  destruct (time_fields t) as ((Hh & Hmi & Hs & Hms) & Htime).
  assert (Hdim : DaysInMonth (YearFromTime t) (MonthFromTime t) <= 31)
    by (unfold DaysInMonth, leap; repeat case_match; lia).
  unfold parse, toISOString.
  rewrite read_year_yearString by lia. cbn [mbind option_bind].
  repeat (rewrite ?append_String, ?append_empty; cbn [expect]; simpl (Ascii.eqb _ _);
          cbv iota; cbn [mbind option_bind];
          try (rewrite read_digits_digits by (simpl (Z.of_nat _); lia);
               cbn [mbind option_bind])).
  replace (MonthFromTime t + 1 - 1) with (MonthFromTime t) by lia.
  rewrite Hday, Htime.
  rewrite !(proj2 (Z.leb_le _ _)) by lia. cbn [andb String.eqb].
  unfold TimeClip. by rewrite !(proj2 (Z.leb_le _ _)) by lia.
Qed.

End DateFacts.

(** ** The Health Reporter (health.ts) *)
Section HealthReporter.
Import Health.

(** The router holds one route, GET /health, mounted under /api. *)
Lemma healthRouter_route :
  App.mounts = [("/api", healthRouter)] ∧
  ∀ route, route ∈ healthRouter →
           method route = GET ∧ path route = "/health" ∧ handler route = healthHandler.
Proof.
  split; [reflexivity|]. intros route Hin.
  apply list_elem_of_singleton in Hin as ->. done.
Qed.

(** The handler always sends: 200 is a code [res.status] accepts. *)
Lemma healthHandler_sends (clock : Clock) (res : Express.Response) :
  healthHandler clock res =
  Express.sends
    {| Express.statusCode := 200%float;
       Express.body :=
         Some {[ "status" := Js.Str "ok";
                 "timestamp" := Js.Str (Date.toISOString (now clock));
                 "uptime" := Js.Number (uptime clock) ]} |}.
Proof. reflexivity. Qed.

(** A request the origin function allows passes the CORS stage, and the
    process is as before. *)
Lemma corsStage_allowed env0 trace o res p :
  CorsConfig.allowed (CorsConfig.origin (CorsConfig.isDevelopment env0) trace o p).1 = true →
  App.corsStage env0 trace o res p = (None, p).
Proof.
  unfold App.corsStage. cbn [CorsConfig.corsConfig CorsConfig.opt_origin].
  unfold CorsConfig.origin.
  destruct (Js.not o); [done|].
  destruct (CorsConfig.isDevelopment env0); [done|]. cbv zeta.
  destruct (Js.includes _ _); [done|]. discriminate.
Qed.




(** The timestamp of the example clock. *)
Example healthHandler_example :
  healthHandler Examples.clock Express.fresh =
  Express.sends
    {| Express.statusCode := 200%float;
       Express.body :=
         Some {[ "status" := Js.Str "ok"; "timestamp" := Js.Str "2026-11-01T17:54:56.789Z";
                 "uptime" := Js.Number 12.5%float ]} |}.
Proof. vm_compute. reflexivity. Qed.

(** Other requests for the same path: a POST, and a GET whose body the
    parser rejects, do not reach the Health Reporter. *)
Example health_request_other :
  (App.handle Examples.development Examples.clock
     {| App.req_method := POST; App.req_path := "/api/health"; App.req_origin := None;
        App.req_trace := ""; App.req_bodyError := None |}
     Express.fresh (Examples.process Examples.development)).1 = App.unrouted ∧
  (App.handle (Examples.production "") Examples.clock
     {| App.req_method := GET; App.req_path := "/api/health"; App.req_origin := None;
        App.req_trace := "";
        App.req_bodyError := Some (Examples.failure "Unexpected token" "at parse" 400%float) |}
     Express.fresh (Examples.process (Examples.production ""))).1 =
  App.answered
    (Express.sends
       {| Express.statusCode := 400%float;
          Express.body := Some {[ "success" := Js.Boolean false;
                                  "error" := Js.Str "Internal server error" ]} |}).
Proof. split; reflexivity. Qed.

End HealthReporter.

(** ** The Startup Reporter (serverStartup.ts) *)
Section StartupReporter.
Import ServerStartup.

Lemma externalIPv4_true_iff net :
  externalIPv4 net = true ↔ Node.family net = Node.IPv4 ∧ Node.internal net = false.
Proof.
  unfold externalIPv4.
  destruct (Node.family net), (Node.internal net); split; (done || intros []; done).
Qed.

Lemma first_match_app_None nets1 nets2 found :
  first_match nets1 None → first_match nets2 found → first_match (nets1 ++ nets2) found.
Proof.
  intros H1 H2. destruct found as [a|]; simpl in *.
  - destruct H2 as (pre & net & post & -> & Hpre & Hnet & ->).
    exists (nets1 ++ pre), net, post. rewrite <- app_assoc.
    split; [done|]. split; [by apply Forall_app|done].
  - by apply Forall_app.
Qed.

Lemma first_match_app_Some nets1 nets2 a :
  first_match nets1 (Some a) → first_match (nets1 ++ nets2) (Some a).
Proof.
  intros (pre & net & post & -> & Hpre & Hnet & ->).
  exists pre, net, (post ++ nets2). by rewrite <- app_assoc.
Qed.

Lemma scanInterface_first nets : first_match nets (scanInterface nets).
Proof.
  induction nets as [|net nets IH]; [by constructor|].
  cbn [scanInterface].
  destruct (externalIPv4 net) eqn:E.
  - apply externalIPv4_true_iff in E as E'. destruct E' as [-> ->].
    exists [], net, nets. by repeat split.
  - assert (Hscan : match Node.family net, Node.internal net with
                    | Node.IPv4, false => Some (Node.address net)
                    | _, _ => scanInterface nets
                    end = scanInterface nets).
    { unfold externalIPv4 in E.
      by destruct (Node.family net), (Node.internal net). }
    rewrite Hscan.
    apply (first_match_app_None [net] nets); [|done].
    by repeat constructor.
Qed.

Lemma scanNames_first interfaces names :
  first_match (flat_map (netsOf interfaces) names) (scanNames interfaces names).
Proof.
  induction names as [|name names IH]; [by constructor|].
  cbn [scanNames flat_map].
  pose proof (scanInterface_first (netsOf interfaces name)) as Hscan.
  destruct (scanInterface (netsOf interfaces name)) as [a|].
  - by apply first_match_app_Some.
  - by apply first_match_app_None.
Qed.

Lemma netsOf_cons_ne k v (interfaces : Node.Interfaces) name :
  name ≠ k → netsOf ((k, v) :: interfaces) name = netsOf interfaces name.
Proof.
  intros Hne. unfold netsOf. cbn [Node.get].
  by destruct (String.eqb_spec name k).
Qed.

Lemma netsOf_cons_eq k v (interfaces : Node.Interfaces) :
  netsOf ((k, v) :: interfaces) k = match v with Some nets => nets | None => [] end.
Proof. unfold netsOf. cbn [Node.get]. by rewrite String.eqb_refl. Qed.

(** An object has each key once: the enumeration is then the arrays of
    the properties, one after the other. *)
Lemma enumeration_NoDup (interfaces : Node.Interfaces) :
  NoDup (Node.keys interfaces) →
  enumeration interfaces =
  flat_map (λ kv, match kv.2 with Some nets => nets | None => [] end) interfaces.
Proof.
  unfold enumeration, Node.keys.
  induction interfaces as [|[k v] d IH]; [done|].
  rewrite fmap_cons. cbn [fst]. intros [Hk Hd]%NoDup_cons. cbn [flat_map snd].
  rewrite netsOf_cons_eq. f_equal. rewrite <- (IH Hd).
  clear IH Hd. revert Hk. generalize (d.*1). intros names Hk.
  induction names as [|name names IH]; [done|].
  apply not_elem_of_cons in Hk as [Hne Hk]. cbn [flat_map].
  rewrite netsOf_cons_ne by done. by rewrite (IH Hk).
Qed.

(** C7: on the object [os.networkInterfaces()] returns, whose keys are
    distinct, [getNetworkAddress] returns the address of the first entry
    that is IPv4 and not internal, the entries taken property after
    property in the order of the keys and, within a property, in the order
    of its array (an [undefined] property has none); when no entry is such,
    it returns ["localhost"]. It is a total function: there is no failure
    path. *)
Theorem getNetworkAddress_first (interfaces : Node.Interfaces) :
  NoDup (interfaces.*1) →
  let entries :=
    flat_map (λ kv, match kv.2 with Some nets => nets | None => [] end) interfaces in
  (∃ pre net post,
      entries = pre ++ net :: post ∧
      Forall (λ n, ¬ (Node.family n = Node.IPv4 ∧ Node.internal n = false)) pre ∧
      Node.family net = Node.IPv4 ∧ Node.internal net = false ∧
      getNetworkAddress interfaces = Node.address net)
  ∨ (Forall (λ n, ¬ (Node.family n = Node.IPv4 ∧ Node.internal n = false)) entries ∧
     getNetworkAddress interfaces = "localhost").
Proof.
  intros Hnd. cbv zeta.
  rewrite <- (enumeration_NoDup interfaces Hnd).
  assert (Hnot : ∀ l, Forall (λ n, externalIPv4 n = false) l →
            Forall (λ n, ¬ (Node.family n = Node.IPv4 ∧ Node.internal n = false)) l).
  { intros l Hl. eapply Forall_impl; [exact Hl|].
    intros n E H%externalIPv4_true_iff. congruence. }
  pose proof (scanNames_first interfaces (Node.keys interfaces)) as H.
  unfold getNetworkAddress. fold (enumeration interfaces) in H.
  destruct (scanNames interfaces (Node.keys interfaces)) as [a|]; cbn [first_match] in H.
  - left. destruct H as (pre & net & post & E & Hpre & Hnet & ->).
    apply externalIPv4_true_iff in Hnet as [Hfam Hint].
    exists pre, net, post. auto.
  - right. auto.
Qed.

Lemma getNetworkAddress_first_witness :
  let entries :=
    flat_map (λ kv, match kv.2 with Some nets => nets | None => [] end)
      Examples.interfaces in
  (∃ pre net post,
      entries = pre ++ net :: post ∧
      Forall (λ n, ¬ (Node.family n = Node.IPv4 ∧ Node.internal n = false)) pre ∧
      Node.family net = Node.IPv4 ∧ Node.internal net = false ∧
      getNetworkAddress Examples.interfaces = Node.address net)
  ∨ (Forall (λ n, ¬ (Node.family n = Node.IPv4 ∧ Node.internal n = false)) entries ∧
     getNetworkAddress Examples.interfaces = "localhost").
Proof.
  apply (getNetworkAddress_first Examples.interfaces).
  refine (bool_decide_unpack _ _). vm_compute. exact I.
Defined.

Example getNetworkAddress_example :
  getNetworkAddress Examples.interfaces = "192.168.1.20".
Proof. reflexivity. Qed.

Example getNetworkAddress_loopback_only :
  getNetworkAddress Examples.loopback_only = "localhost".
Proof. reflexivity. Qed.

Example getNetworkAddress_no_interface : getNetworkAddress [] = "localhost".
Proof. reflexivity. Qed.

End StartupReporter.

(** ** A CORS denial reaches the Error Responder (app.ts) *)
Section CorsDenial.

Lemma origin_denied_inv isDev trace o p err :
  CorsConfig.denied (CorsConfig.origin isDev trace o p).1 = Some err →
  isDev = false ∧ err = Js.new_Error trace "Not allowed by CORS" ∧
  ∃ s, o = Some s ∧ s ≠ EmptyString ∧ s ∉ CorsConfig.allowedOriginsSet (Node.env p).
Proof.
  unfold CorsConfig.origin. destruct (Js.not o) eqn:Hnot; [discriminate|].
  destruct isDev; [discriminate|]. cbv zeta.
  apply not_false_iff in Hnot as (s & -> & Hs). cbn [Js.narrowed].
  destruct (Js.includes _ s) eqn:Hinc; cbn [fst CorsConfig.denied]; [discriminate|].
  intros [= <-]. split; [done|]. split; [done|]. exists s.
  split; [done|]. split; [done|].
  rewrite elem_of_allowedOriginsSet. congruence.
Qed.

(** C9: the error signalled on a CORS denial has neither [status] nor
    [statusCode]; the Error Responder answers it with status 500 in either
    mode, and, since only production mode denies, the answer the
    application gives is status 500 with the generic body. *)
Theorem cors_denial_answered_500 (env0 : Node.Env) (trace : string)
    (o : option string) (res : Express.Response) (p : Node.Process)
    (err : Js.ErrorWithStatus) :
  CorsConfig.denied
    (CorsConfig.origin (CorsConfig.isDevelopment env0) trace o p).1 = Some err →
  Js.status err = None ∧ Js.statusCode err = None ∧
  (∀ isDev res' p',
     ∃ r, (ErrorHandler.errorHandler isDev err res' p').1 = Express.sends r ∧
          Express.statusCode r = 500%float) ∧
  env0 !! "NODE_ENV" = Some "production" ∧
  (App.corsStage env0 trace o res p).1 =
    Some (Express.sends
            {| Express.statusCode := 500%float;
               Express.body :=
                 Some {[ "success" := Js.Boolean false;
                         "error" := Js.Str "Internal server error" ]} |}).
Proof.
  intros Hden. pose proof Hden as Hinv.
  apply origin_denied_inv in Hinv as (Hprod & -> & _).
  split; [reflexivity|]. split; [reflexivity|]. split.
  { intros isDev res' p'. eexists.
    split; [apply errorHandler_valid; reflexivity|reflexivity]. }
  split; [by apply isDevelopment_production|].
  unfold App.corsStage. cbn [CorsConfig.corsConfig CorsConfig.opt_origin].
  destruct (CorsConfig.origin (CorsConfig.isDevelopment env0) trace o p) as [cb p'].
  cbn [fst] in Hden. rewrite Hden.
  rewrite isDevelopment_agree, Hprod. reflexivity.
Qed.

Lemma cors_denial_answered_500_witness :
  let env0 := Examples.production "https://app.example.com" in
  (App.corsStage env0 "at origin" (Some "https://evil.example") Express.fresh
     (Examples.process env0)).1 =
    Some (Express.sends
            {| Express.statusCode := 500%float;
               Express.body :=
                 Some {[ "success" := Js.Boolean false;
                         "error" := Js.Str "Internal server error" ]} |}).
Proof.
  cbv zeta.
  apply (cors_denial_answered_500 (Examples.production "https://app.example.com")
           "at origin" (Some "https://evil.example") Express.fresh
           (Examples.process (Examples.production "https://app.example.com"))
           (Js.new_Error "at origin" "Not allowed by CORS")).
  reflexivity.
Defined.

End CorsDenial.

(** * Further properties of the sources *)

(** ** The list derived from [ALLOWED_ORIGINS] (corsConfig.ts, line 28) *)
Section AllowedOriginsList.
Import CorsConfig.

Lemma split_no_sep sep w :
  Js.string_includes w sep = false → Js.split sep w = [w].
Proof.
  induction w as [|c w IH]; [done|]. cbn [Js.string_includes Js.split].
  intros [Hc Hw]%orb_false_iff. rewrite Hc, (IH Hw). done.
Qed.

(** Splitting goes through a separator: the pieces of [a,b] are the pieces
    of [a] followed by the pieces of [b]. *)
Lemma split_app sep a b :
  Js.split sep (a +:+ String sep b) = Js.split sep a ++ Js.split sep b.
Proof.
  induction a as [|c a IH].
  - rewrite append_empty. cbn [Js.split]. by rewrite Ascii.eqb_refl.
  - rewrite append_String. cbn [Js.split]. rewrite IH.
    destruct (Ascii.eqb c sep); [done|].
    pose proof (split_nonempty sep a) as Hne.
    by destruct (Js.split sep a).
Qed.

Lemma split_join sep ws :
  ws ≠ [] → Forall (λ w, Js.string_includes w sep = false) ws →
  Js.split sep (Js.join sep ws) = ws.
Proof.
  induction ws as [|w ws IH]; [done|]. intros _ Hws.
  apply Forall_cons in Hws as [Hw Hws].
  destruct ws as [|w' ws]; [by apply split_no_sep|].
  change (Js.join sep (w :: w' :: ws)) with (w +:+ String sep (Js.join sep (w' :: ws))).
  rewrite split_app, split_no_sep, IH by done. done.
Qed.

(** X1: the documented way to configure the origins works: with
    [ALLOWED_ORIGINS] set to origins without commas, joined by commas, the
    derived list is exactly these origins, in order. *)
Theorem allowedOrigins_join (env : Node.Env) (origins : list string) :
  origins ≠ [] →
  Forall (λ w, Js.string_includes w "," = false) origins →
  allowedOrigins (<[ "ALLOWED_ORIGINS" := Js.join "," origins ]> env) = origins.
Proof.
  intros Hne Hws. unfold allowedOrigins. rewrite lookup_insert_eq.
  by apply split_join.
Qed.

Lemma allowedOrigins_join_witness :
  allowedOrigins
    (<[ "ALLOWED_ORIGINS" := "https://yourdomain.com,https://www.yourdomain.com" ]>
       Examples.development)
  = ["https://yourdomain.com"; "https://www.yourdomain.com"].
Proof.
  apply (allowedOrigins_join Examples.development
           ["https://yourdomain.com"; "https://www.yourdomain.com"]).
  - discriminate.
  - repeat constructor.
Defined.

(** X2: nothing of the variable is lost and nothing is trimmed: the derived
    list is never empty when the variable is set, no entry holds a comma,
    and the entries joined by commas are the value of the variable. *)
Theorem allowedOrigins_lossless (env : Node.Env) (v : string) :
  env !! "ALLOWED_ORIGINS" = Some v →
  allowedOrigins env ≠ [] ∧
  Forall (λ w, Js.string_includes w "," = false) (allowedOrigins env) ∧
  Js.join "," (allowedOrigins env) = v.
Proof.
  intros Hv. unfold allowedOrigins. rewrite Hv.
  split; [apply split_nonempty|]. split; [apply split_pieces|apply join_split].
Qed.

Lemma allowedOrigins_lossless_witness :
  allowedOrigins (Examples.production "https://a.example, https://b.example") ≠ [] ∧
  Forall (λ w, Js.string_includes w "," = false)
    (allowedOrigins (Examples.production "https://a.example, https://b.example")) ∧
  Js.join "," (allowedOrigins (Examples.production "https://a.example, https://b.example"))
  = "https://a.example, https://b.example".
Proof.
  apply (allowedOrigins_lossless
           (Examples.production "https://a.example, https://b.example")).
  reflexivity.
Defined.

(** X3: appending [,x] to [ALLOWED_ORIGINS] appends the pieces of [x] to the
    derived list: every origin allowed before stays allowed, and an [x]
    without a comma becomes allowed. *)
Theorem allowedOrigins_append (env : Node.Env) (v x : string) :
  env !! "ALLOWED_ORIGINS" = Some v →
  let env' := <[ "ALLOWED_ORIGINS" := v +:+ String "," x ]> env in
  allowedOrigins env' = allowedOrigins env ++ Js.split "," x ∧
  (∀ o, o ∈ allowedOriginsSet env → o ∈ allowedOriginsSet env') ∧
  (Js.string_includes x "," = false → x ∈ allowedOriginsSet env').
Proof.
  intros Hv. cbv zeta.
  assert (E : allowedOrigins (<[ "ALLOWED_ORIGINS" := v +:+ String "," x ]> env)
              = allowedOrigins env ++ Js.split "," x).
  { unfold allowedOrigins. rewrite lookup_insert_eq, Hv. apply split_app. }
  split; [exact E|]. unfold allowedOriginsSet. rewrite E. split.
  - intros o. rewrite !elem_of_list_to_set, elem_of_app. auto.
  - intros Hx. rewrite elem_of_list_to_set, elem_of_app, (split_no_sep _ _ Hx).
    right. by apply list_elem_of_singleton.
Qed.

Lemma allowedOrigins_append_witness :
  let env' := <[ "ALLOWED_ORIGINS" := "https://a.example,https://b.example" ]>
                (Examples.production "https://a.example") in
  ("https://a.example" ∈ allowedOriginsSet env') ∧
  ("https://b.example" ∈ allowedOriginsSet env').
Proof.
  cbv zeta.
  destruct (allowedOrigins_append (Examples.production "https://a.example")
              "https://a.example" "https://b.example" ltac:(reflexivity))
    as (_ & Hold & Hnew).
  split.
  - apply Hold. apply elem_of_allowedOriginsSet. reflexivity.
  - apply Hnew. reflexivity.
Defined.

End AllowedOriginsList.

(** ** More on the origin function (corsConfig.ts, lines 16-36) *)
Section OriginFunction.
Import CorsConfig.

Lemma origin_production_nonempty trace s p :
  s ≠ EmptyString →
  origin false trace (Some s) p =
  if Js.includes (allowedOrigins (Node.env p)) s then (callback None (Some true), p)
  else (denial trace,
        Node.write (Node.console_warn ("❌ CORS blocked origin: " +:+ s)) p).
Proof.
  intros Hs. unfold origin.
  assert (Hnot : Js.not (Some s) = false) by (apply not_false_iff; eauto).
  by rewrite Hnot.
Qed.

(** X4: production denies by default: with [ALLOWED_ORIGINS] unset, or set
    to the empty string, every request with a non-empty origin is denied. *)
Theorem origin_default_deny (env0 : Node.Env) (trace s : string) (p : Node.Process) :
  env0 !! "NODE_ENV" = Some "production" →
  Node.env p !! "ALLOWED_ORIGINS" = None ∨
  Node.env p !! "ALLOWED_ORIGINS" = Some EmptyString →
  s ≠ EmptyString →
  (origin (isDevelopment env0) trace (Some s) p).1 = denial trace.
Proof.
  intros Hprod%isDevelopment_production Hv Hs. rewrite Hprod.
  rewrite origin_production_nonempty by done.
  assert (Hinc : Js.includes (allowedOrigins (Node.env p)) s = false).
  { apply not_true_iff_false. rewrite includes_elem_of.
    unfold allowedOrigins. destruct Hv as [-> | ->]; cbn [Js.split].
    - apply not_elem_of_nil.
    - intros Hin%list_elem_of_singleton. done. }
  by rewrite Hinc.
Qed.

Lemma origin_default_deny_witness :
  (origin (isDevelopment (Examples.production "")) "at origin"
     (Some "https://app.example.com") (Examples.process (Examples.production ""))).1
  = denial "at origin".
Proof.
  apply (origin_default_deny (Examples.production "")).
  - reflexivity.
  - right. reflexivity.
  - discriminate.
Defined.

(** X5: in production an origin that holds a comma is denied whatever
    [ALLOWED_ORIGINS] is, since no piece of the split holds one. *)
Theorem origin_with_comma_denied (env0 : Node.Env) (trace s : string) (p : Node.Process) :
  env0 !! "NODE_ENV" = Some "production" →
  Js.string_includes s "," = true →
  (origin (isDevelopment env0) trace (Some s) p).1 = denial trace.
Proof.
  intros Hprod%isDevelopment_production Hs. rewrite Hprod.
  assert (Hne : s ≠ EmptyString) by (intros ->; discriminate Hs).
  rewrite origin_production_nonempty by done.
  assert (Hinc : Js.includes (allowedOrigins (Node.env p)) s = false).
  { apply not_true_iff_false. rewrite includes_elem_of. intros Hin.
    assert (Hpieces : Forall (λ w, Js.string_includes w "," = false)
                        (allowedOrigins (Node.env p))).
    { unfold allowedOrigins. destruct (Node.env p !! "ALLOWED_ORIGINS");
        [apply split_pieces|constructor]. }
    rewrite Forall_forall in Hpieces. specialize (Hpieces s Hin). congruence. }
  by rewrite Hinc.
Qed.

Lemma origin_with_comma_denied_witness :
  let env0 := Examples.production "https://a.example,https://b.example" in
  (origin (isDevelopment env0) "at origin" (Some "https://a.example,https://b.example")
     (Examples.process env0)).1
  = denial "at origin".
Proof.
  cbv zeta.
  apply (origin_with_comma_denied
           (Examples.production "https://a.example,https://b.example"));
    reflexivity.
Defined.

(** X6: the origin function writes to the console exactly when it denies:
    an allowed request leaves the process as it was, a denied one adds one
    warning that names the blocked origin, and nothing else. *)
Theorem origin_console (isDev : bool) (trace : string) (o : option string)
    (p : Node.Process) :
  let r := origin isDev trace o p in
  (allowed r.1 = true ∧ r.2 = p) ∨
  (∃ s, o = Some s ∧ s ≠ EmptyString ∧ r.1 = denial trace ∧
        r.2 = {| Node.env := Node.env p;
                 Node.console := Node.console p ++
                   [Node.console_warn ("❌ CORS blocked origin: " +:+ s)] |}).
Proof.
  cbv zeta. unfold origin.
  destruct (Js.not o) eqn:Hnot; [by left|].
  destruct isDev; [by left|]. cbv zeta.
  apply not_false_iff in Hnot as (s & -> & Hs). cbn [Js.narrowed].
  destruct (Js.includes _ s); [by left|].
  right. exists s. done.
Qed.

(** X7: in development no request of a run is denied and the run leaves
    the process, console included, as it was. *)
Theorem originRun_development (env0 : Node.Env) (requests : list (string * option string))
    (p : Node.Process) :
  env0 !! "NODE_ENV" ≠ Some "production" →
  originRun (isDevelopment env0) requests p =
  (map (λ _, callback None (Some true)) requests, p).
Proof.
  intros Hdev%isDevelopment_default. rewrite Hdev. clear Hdev.
  induction requests as [|[trace o] requests IH]; [reflexivity|].
  cbn [originRun map].
  assert (E : origin true trace o p = (callback None (Some true), p)).
  { unfold origin. by destruct (Js.not o). }
  rewrite E, IH. reflexivity.
Qed.

Lemma originRun_development_witness :
  originRun (isDevelopment Examples.development)
    [("", Some "https://evil.example"); ("", None); ("", Some "null")]
    (Examples.process Examples.development)
  = ([callback None (Some true); callback None (Some true); callback None (Some true)],
     Examples.process Examples.development).
Proof.
  apply (originRun_development Examples.development
           [("", Some "https://evil.example"); ("", None); ("", Some "null")]).
  discriminate.
Defined.

(** X8: over a run of requests the console grows by exactly one warning
    per denied request, in the order of the requests; the entries that were
    there stay. *)
Theorem originRun_console (isDev : bool) (requests : list (string * option string))
    (p : Node.Process) :
  Node.console (originRun isDev requests p).2 =
  Node.console p ++
  flat_map (λ '(trace, o),
              if allowed (origin isDev trace o p).1 then []
              else [Node.console_warn ("❌ CORS blocked origin: " +:+ Js.narrowed o)])
           requests.
Proof.
  revert p. induction requests as [|[trace o] requests IH]; intros p.
  - cbn [originRun flat_map snd]. by rewrite app_nil_r.
  - cbn [originRun flat_map].
    destruct (origin isDev trace o p) as [cb p1] eqn:E1.
    destruct (originRun isDev requests p1) as [cbs p2] eqn:E2.
    cbn [fst snd]. change p2 with (cbs, p2).2. rewrite <- E2, IH.
    assert (Henv : Node.env p1 = Node.env p).
    { change p1 with (cb, p1).2. rewrite <- E1. apply origin_env. }
    assert (Hsame : ∀ trace' o', (origin isDev trace' o' p1).1 = (origin isDev trace' o' p).1)
      by (intros; by apply origin_callback_env).
    assert (Hstep : Node.console p1 = Node.console p ++
              (if allowed cb then []
               else [Node.console_warn ("❌ CORS blocked origin: " +:+ Js.narrowed o)])).
    { destruct (origin_console isDev trace o p) as [[Ha Hp]|(s & -> & _ & Hd & Hp)];
        rewrite E1 in *; cbn [fst snd] in *; subst.
      - rewrite Ha. by rewrite app_nil_r.
      - reflexivity. }
    rewrite Hstep, <- app_assoc. f_equal. f_equal.
    apply flat_map_ext. intros [trace' o']. by rewrite Hsame.
Qed.

End OriginFunction.

(** ** More on the Error Responder (errorHandler.ts) *)
Section ErrorResponderMore.
Import ErrorHandler.


Lemma JSON_development_error err :
  Js.JSON (responseBody true err) !! "error" = Some (Js.Str (Js.message err)).
Proof. rewrite JSON_development. by destruct (Js.stack err). Qed.

Lemma JSON_development_stack err :
  Js.JSON (responseBody true err) !! "stack" = Js.Str <$> Js.stack err.
Proof. rewrite JSON_development. by destruct (Js.stack err). Qed.



End ErrorResponderMore.

(** ** More on the CORS stage of the application (app.ts) *)
Section CorsStage.

(** X11: a request the CORS stage lets through leaves the process as it
    was; a request it answers has a non-empty origin and leaves exactly two
    new console entries, the warning naming the origin and then the log of
    the error, with the environment untouched. *)
Theorem corsStage_console (env0 : Node.Env) (trace : string) (o : option string)
    (res : Express.Response) (p : Node.Process) :
  let r := App.corsStage env0 trace o res p in
  (r.1 = None ∧ r.2 = p) ∨
  (∃ s, o = Some s ∧ s ≠ EmptyString ∧ is_Some r.1 ∧
        Node.env r.2 = Node.env p ∧
        Node.console r.2 = Node.console p ++
          [Node.console_warn ("❌ CORS blocked origin: " +:+ s);
           Node.console_error "❌ Error:" (Js.new_Error trace "Not allowed by CORS")]).
Proof.
  cbv zeta. unfold App.corsStage. cbn [CorsConfig.corsConfig CorsConfig.opt_origin].
  destruct (origin_console (CorsConfig.isDevelopment env0) trace o p)
    as [[Ha Hp]|(s & -> & Hs & Hd & Hp)];
    destruct (CorsConfig.origin _ trace _ p) as [cb p1]; cbn [fst snd] in *; subst.
  - left. destruct cb as [[e|] [[|]|]]; try discriminate Ha. done.
  - right. exists s. cbn. rewrite <- app_assoc. eauto.
Qed.

(** X12: the answer to a denied request gives nothing away: any two
    requests the CORS stage answers, whatever their origins, their
    configurations and the stacks captured, get the same response. *)
Theorem corsStage_answers_agree (env1 env2 : Node.Env) (trace1 trace2 : string)
    (o1 o2 : option string) (res1 res2 : Express.Response) (p1 p2 : Node.Process)
    (r1 r2 : Express.Completion) :
  (App.corsStage env1 trace1 o1 res1 p1).1 = Some r1 →
  (App.corsStage env2 trace2 o2 res2 p2).1 = Some r2 →
  r1 = r2.
Proof.
  assert (H : ∀ env0 trace o res p r,
            (App.corsStage env0 trace o res p).1 = Some r →
            r = Express.sends
                  {| Express.statusCode := 500%float;
                     Express.body := Some (Js.JSON (ErrorHandler.responseBody false
                                                      (Js.new_Error "" ""))) |}).
  { intros env0 trace o res p r. unfold App.corsStage.
    cbn [CorsConfig.corsConfig CorsConfig.opt_origin].
    destruct (CorsConfig.origin (CorsConfig.isDevelopment env0) trace o p)
      as [cb p'] eqn:E.
    destruct (CorsConfig.denied cb) as [err|] eqn:Hden; [|discriminate].
    assert (Hden' : CorsConfig.denied
              (CorsConfig.origin (CorsConfig.isDevelopment env0) trace o p).1 = Some err)
      by (by rewrite E).
    apply origin_denied_inv in Hden' as (Hprod & -> & _).
    rewrite isDevelopment_agree, Hprod. cbn. by intros [= <-]. }
  intros H1%H H2%H. congruence.
Qed.

Lemma corsStage_answers_agree_witness :
  (App.corsStage (Examples.production "https://a.example") "at f"
     (Some "https://evil.example") Express.fresh
     (Examples.process (Examples.production "https://a.example"))).1 =
  (App.corsStage (Examples.production "") "at g"
     (Some "https://a.example") Express.fresh
     (Examples.process (Examples.production ""))).1.
Proof.
  pose (r := Express.sends
               {| Express.statusCode := 500%float;
                  Express.body := Some (Js.JSON (ErrorHandler.responseBody false
                                                   (Js.new_Error "" ""))) |}).
  assert (E1 : (App.corsStage (Examples.production "https://a.example") "at f"
                  (Some "https://evil.example") Express.fresh
                  (Examples.process (Examples.production "https://a.example"))).1
               = Some r) by reflexivity.
  assert (E2 : (App.corsStage (Examples.production "") "at g"
                  (Some "https://a.example") Express.fresh
                  (Examples.process (Examples.production ""))).1
               = Some r) by reflexivity.
  rewrite E1, E2.
  exact (f_equal Some (corsStage_answers_agree _ _ _ _ _ _ _ _ _ _ _ _ E1 E2)).
Defined.

End CorsStage.

(** ** More on the Startup Reporter (serverStartup.ts, app.ts) *)
Section StartupReporterMore.
Import ServerStartup.

Lemma get_app_l (d d' : Node.Interfaces) (k : string) :
  k ∈ Node.keys d → Node.get (d ++ d') k = Node.get d k.
Proof.
  unfold Node.keys. induction d as [|[k' v] d IH]; [by intros ?%elem_of_nil|].
  rewrite fmap_cons. cbn [fst]. intros Hk. cbn [app Node.get].
  destruct (String.eqb_spec k k') as [->|Hne]; [done|].
  apply IH. apply elem_of_cons in Hk as [?|?]; done.
Qed.

Lemma scanNames_app (d : Node.Interfaces) (names1 names2 : list string) :
  scanNames d (names1 ++ names2) =
  match scanNames d names1 with
  | Some a => Some a
  | None => scanNames d names2
  end.
Proof.
  induction names1 as [|name names1 IH]; [done|]. cbn [app scanNames].
  by destruct (scanInterface (netsOf d name)).
Qed.

Lemma scanNames_agree (d d' : Node.Interfaces) (names : list string) :
  (∀ name, name ∈ names → Node.get d' name = Node.get d name) →
  scanNames d' names = scanNames d names.
Proof.
  induction names as [|name names IH]; [done|]. intros Hget. cbn [scanNames].
  unfold netsOf. rewrite Hget by apply list_elem_of_here.
  rewrite IH; [done|]. intros name' Hin. apply Hget. by apply list_elem_of_further.
Qed.

Lemma first_match_find nets found :
  first_match nets found → found = Node.address <$> List.find externalIPv4 nets.
Proof.
  destruct found as [a|]; cbn [first_match].
  - intros (pre & net & post & -> & Hpre & Hnet & ->).
    induction Hpre as [|n pre Hn Hpre IH]; cbn [app List.find].
    + by rewrite Hnet.
    + by rewrite Hn.
  - intros Hall. induction Hall as [|n nets Hn Hall IH]; [done|].
    cbn [List.find]. by rewrite Hn.
Qed.

(** X13: the first address found wins: once the interfaces hold an
    external IPv4 entry, interfaces enumerated after them do not change the
    result. *)
Theorem getNetworkAddress_app (interfaces more : Node.Interfaces)
    (net : Node.NetworkInterfaceInfo) :
  net ∈ enumeration interfaces →
  Node.family net = Node.IPv4 → Node.internal net = false →
  getNetworkAddress (interfaces ++ more) = getNetworkAddress interfaces.
Proof.
  intros Hin Hfam Hint. unfold getNetworkAddress.
  assert (Hkeys : Node.keys (interfaces ++ more) = Node.keys interfaces ++ Node.keys more)
    by apply fmap_app.
  rewrite Hkeys, scanNames_app.
  rewrite (scanNames_agree interfaces (interfaces ++ more) (Node.keys interfaces))
    by (intros name Hname; by apply get_app_l).
  pose proof (scanNames_first interfaces (Node.keys interfaces)) as Hfirst.
  fold (enumeration interfaces) in Hfirst.
  destruct (scanNames interfaces (Node.keys interfaces)) as [a|]; [done|].
  cbn [first_match] in Hfirst. rewrite Forall_forall in Hfirst.
  specialize (Hfirst net Hin).
  assert (externalIPv4 net = true) by (by apply externalIPv4_true_iff).
  congruence.
Qed.

Lemma getNetworkAddress_app_witness :
  getNetworkAddress (Examples.interfaces ++ [("tun0", Some [Examples.net "10.8.0.2" Node.IPv4 false])])
  = getNetworkAddress Examples.interfaces.
Proof.
  apply (getNetworkAddress_app Examples.interfaces _
           (Examples.net "192.168.1.20" Node.IPv4 false)).
  - vm_compute. apply list_elem_of_further, list_elem_of_further, list_elem_of_further,
      list_elem_of_here.
  - reflexivity.
  - reflexivity.
Defined.

(** X14: on an object, whose keys are distinct, the two loops are a search
    through the arrays of the properties laid end to end: the result is the
    address of the first entry that is IPv4 and not internal, or
    ["localhost"]. *)
Theorem getNetworkAddress_find (interfaces : Node.Interfaces) :
  NoDup (Node.keys interfaces) →
  getNetworkAddress interfaces =
  match List.find (λ net, match Node.family net, Node.internal net with
                          | Node.IPv4, false => true
                          | _, _ => false
                          end)
          (flat_map (λ kv, match kv.2 with Some nets => nets | None => [] end) interfaces)
  with
  | Some net => Node.address net
  | None => "localhost"
  end.
Proof.
  intros Hnd. rewrite <- (enumeration_NoDup interfaces Hnd).
  pose proof (scanNames_first interfaces (Node.keys interfaces)) as Hfirst.
  fold (enumeration interfaces) in Hfirst. apply first_match_find in Hfirst.
  unfold getNetworkAddress. rewrite Hfirst. fold externalIPv4.
  change (λ net, externalIPv4 net) with externalIPv4.
  by destruct (List.find externalIPv4 (enumeration interfaces)).
Qed.

Lemma getNetworkAddress_find_witness :
  getNetworkAddress Examples.interfaces = "192.168.1.20".
Proof.
  rewrite (getNetworkAddress_find Examples.interfaces).
  - reflexivity.
  - refine (bool_decide_unpack _ _). vm_compute. exact I.
Defined.

Lemma getNetworkAddress_localhost (interfaces : Node.Interfaces) :
  Forall (λ n, ¬ (Node.family n = Node.IPv4 ∧ Node.internal n = false))
    (enumeration interfaces) →
  getNetworkAddress interfaces = "localhost".
Proof.
  intros Hall. unfold getNetworkAddress.
  pose proof (scanNames_first interfaces (Node.keys interfaces)) as Hfirst.
  fold (enumeration interfaces) in Hfirst.
  destruct (scanNames interfaces (Node.keys interfaces)) as [a|]; [|done].
  destruct Hfirst as (pre & net & post & E & _ & Hnet & _).
  rewrite Forall_forall in Hall. destruct (Hall net).
  - rewrite E. apply elem_of_app. right. apply list_elem_of_here.
  - by apply externalIPv4_true_iff.
Qed.

(** X15: on a host without an external IPv4 address the banner shows the
    local URL twice: the network URL is [http://localhost:] and the port,
    and the one line [displayServerInfo] logs is the box around the message
    built with it. *)
Theorem displayServerInfo_fallback (t : Terminal) (interfaces : Node.Interfaces)
    (now : Z) (port : Port) (p : Node.Process) :
  Forall (λ n, ¬ (Node.family n = Node.IPv4 ∧ Node.internal n = false))
    (enumeration interfaces) →
  networkUrl t interfaces port = localUrl t port ∧
  displayServerInfo t interfaces now port p =
  Node.write
    (Node.console_log
       (boxen t
          (message t (appName (Node.env p)) (toLocaleTimeString t now)
             (localUrl t port) (localUrl t port))
          {| padding := 0.25%float; margin := 0%float;
             borderStyle := "round"; borderColor := "cyan" |}))
    p.
Proof.
  intros Hall%getNetworkAddress_localhost.
  assert (E : networkUrl t interfaces port = localUrl t port).
  { unfold networkUrl, localUrl. rewrite Hall. reflexivity. }
  split; [exact E|]. unfold displayServerInfo. cbv zeta. by rewrite E.
Qed.

Lemma displayServerInfo_fallback_witness :
  networkUrl Examples.terminal Examples.loopback_only (port_string "8080")
  = "http://localhost:8080".
Proof.
  destruct (displayServerInfo_fallback Examples.terminal Examples.loopback_only 0%Z
              (port_string "8080") (Examples.process Examples.development))
    as [E _].
  - repeat constructor; intros [Hf Hi]; discriminate.
  - rewrite E. reflexivity.
Defined.

End StartupReporterMore.

(** ** More on the Health Reporter (health.ts) *)
Section HealthReporterMore.
Import Health.



End HealthReporterMore.
